(** * Container bindings of the Lua scripting layer

    A shallow embedding of [src/lua/functions/items/container_functions.cpp]:
    the fourteen [ContainerFunctions::luaContainer*] bindings, as state
    transformers over an explicit object store, and the properties the
    container specification states about them. *)

From stdpp Require Import gmap strings list fin_maps.

Local Open Scope Z_scope.

(** ** Machine integers

    [uint16_t] and [uint32_t] values are integers of [Z]; a conversion to a
    narrower unsigned type keeps the low bits. *)

Definition to_u16 (z : Z) : Z := z mod 2 ^ 16.
Definition to_u32 (z : Z) : Z := z mod 2 ^ 32.

Definition in_u16 (z : Z) : Prop := 0 <= z < 2 ^ 16.
Definition in_u32 (z : Z) : Prop := 0 <= z < 2 ^ 32.

(** ** Objects

    A [std::shared_ptr<Item>] is a reference into the object store, or null. *)

Definition Ref := positive.

(** Attribute kinds; the bindings only name [ItemAttribute_t::DATE]. *)
Inductive ItemAttribute_t : Type :=
  | DATE
  | OtherAttribute (code : nat).

#[global] Instance ItemAttribute_t_eq_dec : EqDecision ItemAttribute_t.
Proof. solve_decision. Defined.

#[global] Instance ItemAttribute_t_countable : Countable ItemAttribute_t.
Proof.
  refine (inj_countable'
            (fun a => match a with DATE => 0%nat | OtherAttribute n => S n end)
            (fun n => match n with O => DATE | S n => OtherAttribute n end) _).
  intros []; reflexivity.
Defined.

(** The parent of an item: the transient staging area
    ([VirtualCylinder::virtualCylinder]) or a container. A null parent is
    [None] in [item_parent]. *)
Inductive Cylinder : Type :=
  | virtualCylinder
  | containerCylinder (c : Ref).

#[global] Instance Cylinder_eq_dec : EqDecision Cylinder.
Proof. solve_decision. Defined.

(** The container part of an item that has slots. *)
Record Container : Type := mkContainer {
  maxCapacity  : Z;          (* configured number of slots *)
  unlimited    : bool;       (* the unbounded mode *)
  itemlist     : list Ref;   (* the slots, in index order *)
  corpseOwner  : Z;
  rewardCorpse : bool
}.

Record Item : Type := mkItem {
  item_id         : Z;
  item_count      : Z;
  item_parent     : option Cylinder;
  item_attributes : gmap ItemAttribute_t Z;
  item_container  : option Container   (* [Item::getContainer()] *)
}.

(** ** The world the bindings run in *)

Record World : Type := mkWorld {
  heap        : gmap Ref Item;   (* the live objects *)
  tempItems   : gset Ref;        (* the script environment's temporary items *)
  errors      : list string;     (* what [reportErrorFunc] has reported *)
  clock_reads : nat              (* how often the clock has been read *)
}.

(** ** Lua values

    What a binding pushes on the Lua stack. Every binding pushes exactly one
    value and returns 1. *)
#[warnings="-register-all"]
Inductive LuaValue : Type :=
  | LuaNil
  | LuaBoolean (b : bool)
  | LuaNumber (n : Z)
  | LuaString (s : string)
  | LuaUserdata (r : Ref)
  | LuaTable (t : gmap Z LuaValue).

(** [lua_toboolean]: only [nil] and [false] are false. *)
Definition lua_toboolean (v : LuaValue) : bool :=
  match v with
  | LuaNil | LuaBoolean false => false
  | _ => true
  end.

(** ** Outcomes

    A binding either returns, with the pushed value and the new world, or
    dereferences a null pointer. *)
Inductive Outcome (A : Type) : Type :=
  | Done (a : A) (w : World)
  | NullDereference.
Arguments Done {A} a w.
Arguments NullDereference {A}.

Definition M (A : Type) : Type := World -> Outcome A.

#[global] Instance M_ret : MRet M := fun A a w => Done a w.

#[global] Instance M_bind : MBind M := fun A B k m w =>
  match m w with
  | Done a w' => k a w'
  | NullDereference => NullDereference
  end.

Definition gets {A} (f : World -> A) : M A := fun w => Done (f w) w.
Definition modify (f : World -> World) : M unit := fun w => Done tt (f w).
Definition fault {A} : M A := fun _ => NullDereference.

(** ** The item catalog and the other collaborators

    The bindings marshal calls to the game engine. What the engine supplies
    and the bindings' file does not define is gathered in [Env]: the catalog
    ([Item::items]), the insertion engine ([Game::internalAddItem]), the
    container queries that walk the whole subtree, the clock, and the
    constants of the engine's headers. *)

Record ItemType : Type := mkItemType {
  type_id      : Z;     (* 0: the catalog has no such type *)
  stackable    : bool;
  stackSize    : Z;
  baseCapacity : Z      (* number of slots; 0 for an item without slots *)
}.

(** A [ReturnValue] is the number of its enumerator. *)
Definition ReturnValue := Z.

(** The second argument of [addItem] and [getItemCountById]: a number
    ([isNumber(L, 2)], read with [getNumber<uint16_t>]) or a name. *)
Inductive ItemIdArg : Type :=
  | ById (n : Z)
  | ByName (name : string).

Record Env : Type := mkEnv {
  items                  : Z -> ItemType;
  getItemIdByName        : string -> Z;
  ITEM_REWARD_CONTAINER  : Z;
  INDEX_WHEREEVER        : Z;
  RETURNVALUE_NOERROR    : ReturnValue;
  UNBOUNDED_CAPACITY     : Z;
  getReturnMessage       : ReturnValue -> string;
  internalAddItem        : Ref -> Ref -> Z -> Z -> World -> ReturnValue * World;
  clock                  : nat -> Z;   (* the successive clock readings *)
  getContainerByUID      : World -> Z -> option Ref;
  iterator               : World -> Ref -> list Ref;
  getItems               : World -> Ref -> bool -> list Ref;
  getItemHoldingCount    : World -> Ref -> Z;
  isHoldingItem          : World -> Ref -> option Ref -> bool;
  getItemTypeCount       : World -> Ref -> Z -> Z -> Z;
  getContentDescription  : World -> Ref -> bool -> string
}.

(** ** Field updates of the world *)

Definition with_heap (f : gmap Ref Item -> gmap Ref Item) (w : World) : World :=
  mkWorld (f (heap w)) (tempItems w) (errors w) (clock_reads w).

Definition with_tempItems (f : gset Ref -> gset Ref) (w : World) : World :=
  mkWorld (heap w) (f (tempItems w)) (errors w) (clock_reads w).

Definition with_errors (f : list string -> list string) (w : World) : World :=
  mkWorld (heap w) (tempItems w) (f (errors w)) (clock_reads w).

Definition with_clock_reads (f : nat -> nat) (w : World) : World :=
  mkWorld (heap w) (tempItems w) (errors w) (f (clock_reads w)).

Definition set_attributes (f : gmap ItemAttribute_t Z -> gmap ItemAttribute_t Z)
    (i : Item) : Item :=
  mkItem (item_id i) (item_count i) (item_parent i) (f (item_attributes i))
         (item_container i).

Definition set_parent (p : option Cylinder) (i : Item) : Item :=
  mkItem (item_id i) (item_count i) p (item_attributes i) (item_container i).

Definition map_container (f : Container -> Container) (i : Item) : Item :=
  mkItem (item_id i) (item_count i) (item_parent i) (item_attributes i)
         (f <$> item_container i).

(** ** Reading objects *)

Definition getContainer (w : World) (r : Ref) : option Container :=
  heap w !! r ≫= item_container.

Definition getParent (w : World) (r : Ref) : option Cylinder :=
  heap w !! r ≫= item_parent.

Definition getAttribute (w : World) (r : Ref) (a : ItemAttribute_t) : option Z :=
  heap w !! r ≫= fun i => item_attributes i !! a.

Definition getCount (w : World) (r : Ref) : option Z :=
  item_count <$> heap w !! r.

Definition slots_of (w : World) (c : Ref) : list Ref :=
  from_option itemlist [] (getContainer w c).

Definition isRewardCorpse (w : World) (c : Ref) : bool :=
  from_option rewardCorpse false (getContainer w c).

(** Modelled from the spec: [Container::size()], defined outside the
    bindings, is the number of items in the slots of the container, not
    recursive. *)
Definition Container_size (w : World) (c : Ref) : Z :=
  Z.of_nat (length (slots_of w c)).

(** Modelled from the spec: [Container::getMaxCapacity()], defined outside
    the bindings, is the configured limit, whatever the mode. *)
Definition Container_getMaxCapacity (w : World) (c : Ref) : Z :=
  from_option maxCapacity 0 (getContainer w c).

(** Modelled from the spec: [Container::getCorpseOwner()], defined outside
    the bindings, is the identifier of the restricted looter, 0 for none. *)
Definition Container_getCorpseOwner (w : World) (c : Ref) : Z :=
  from_option corpseOwner 0 (getContainer w c).

(** Modelled from the spec: [Container::getItemByIndex], defined outside the
    bindings, is the item at the slot, or null when the index is out of
    range. *)
Definition Container_getItemByIndex (w : World) (c : Ref) (index : Z) : option Ref :=
  slots_of w c !! Z.to_nat index.

(** ** Primitive operations on the world *)

(** Modelled from the spec: [reportErrorFunc], a macro defined outside the
    bindings, makes an explicit error report; the reports are kept in the
    order they are made. *)
Definition reportErrorFunc (msg : string) : M unit :=
  modify (with_errors (fun l => l ++ [msg])).

(** Modelled from the spec: [ScriptEnvironment::removeTempItem], defined
    outside the bindings; the script environment keeps the items a script
    has made and not yet placed, and the call takes the item out of them. *)
Definition removeTempItem (item : Ref) : M unit :=
  modify (with_tempItems (fun s => s ∖ {[item]})).

(** Modelled from the spec: [Item::setAttribute], defined outside the
    bindings; the attributes of an item are a mapping from attribute kind to
    value, and setting one overwrites it. *)
Definition setAttribute (r : Ref) (a : ItemAttribute_t) (v : Z) : M unit :=
  modify (with_heap (alter (set_attributes <[a := v]>) r)).

(** Modelled from the spec: [Container::internalAddThing], defined outside
    the bindings; the item becomes a slot entry of the container and the
    container becomes its owner. The call returns nothing the binding looks
    at, and is unconditional here. The spec does not fix the slot; the item
    is appended, and no theorem below depends on the position. *)
Definition internalAddThing (c r : Ref) : M unit :=
  modify (with_heap (fun h =>
    alter (set_parent (Some (containerCylinder c))) r
      (alter (map_container (fun k =>
         mkContainer (maxCapacity k) (unlimited k) (itemlist k ++ [r])
                     (corpseOwner k) (rewardCorpse k))) c h))).

(** Modelled from the spec: [Container::setRewardCorpse], defined outside
    the bindings, sets the reward flag of the container. *)
Definition setRewardCorpse (c : Ref) : M unit :=
  modify (with_heap (alter (map_container (fun k =>
    mkContainer (maxCapacity k) (unlimited k) (itemlist k)
                (corpseOwner k) true)) c)).

Section Bindings.

Context (env : Env).

(** Modelled from the spec: [Container::capacity()], defined outside the
    bindings, is the configured limit unless the unbounded mode is set, and
    then a sentinel, which the engine's headers fix. *)
Definition Container_capacity (w : World) (c : Ref) : Z :=
  match getContainer w c with
  | Some k => if unlimited k then UNBOUNDED_CAPACITY env else maxCapacity k
  | None => 0
  end.

(** Modelled from the spec: [getTimeMsNow()], defined outside the bindings,
    generates a timestamp: one reading of the clock. *)
Definition getTimeMsNow : M Z :=
  fun w => Done (clock env (clock_reads w)) (with_clock_reads S w).

(** Modelled from the spec: [Item::CreateItem], defined outside the
    bindings; the item factory constructs a new item for [(id, count)], in
    limbo and with no attributes, a container when the catalog gives its
    type slots, or fails; it fails here when the catalog has no type of this
    id. *)
Definition CreateItem (id count : Z) : M (option Ref) :=
  fun w =>
    let it := items env id in
    if type_id it =? 0 then Done None w
    else
      let r := fresh (dom (heap w)) in
      let k := if 0 <? baseCapacity it
               then Some (mkContainer (baseCapacity it) false [] 0 false)
               else None in
      Done (Some r)
           (with_heap <[r := mkItem id count (Some virtualCylinder) ∅ k]> w).

(** [g_game().internalAddItem(container, item, index, flags)]. *)
Definition Game_internalAddItem (c item : Ref) (index flags : Z) : M ReturnValue :=
  fun w => let '(r, w') := internalAddItem env c item index flags w in Done r w'.

(** ** The bindings *)

(** [Container(uid)] *)
Definition luaContainerCreate (id : Z) : M LuaValue :=
  container ← gets (fun w => getContainerByUID env w id);
  match container with
  | Some c => mret (LuaUserdata c)
  | None => mret LuaNil
  end.

(** [container:getSize()] *)
Definition luaContainerGetSize (container : option Ref) : M LuaValue :=
  match container with
  | Some c => n ← gets (fun w => Container_size w c); mret (LuaNumber n)
  | None => mret LuaNil
  end.

(** [container:getMaxCapacity()] *)
Definition luaContainerGetMaxCapacity (container : option Ref) : M LuaValue :=
  match container with
  | Some c => n ← gets (fun w => Container_getMaxCapacity w c); mret (LuaNumber n)
  | None => mret LuaNil
  end.

(** [container:getCapacity()] *)
Definition luaContainerGetCapacity (container : option Ref) : M LuaValue :=
  match container with
  | Some c => n ← gets (fun w => Container_capacity w c); mret (LuaNumber n)
  | None => mret LuaNil
  end.

(** The loop of [getEmptySlots]. A [ContainerIterator] is the sequence of
    items it has still to yield: [hasNext] is false on the empty sequence,
    [*it] is the first item and [advance] drops it. [slots] is a
    [uint32_t]. *)
Fixpoint emptySlots_loop (w : World) (it : list Ref) (slots : Z) : Z :=
  match it with
  | [] => slots
  | item :: it' =>
      emptySlots_loop w it'
        (match getContainer w item with
         | Some _ => to_u32 (slots + (Container_capacity w item - Container_size w item))
         | None => slots
         end)
  end.

(** [container:getEmptySlots([recursive = false])] *)
Definition luaContainerGetEmptySlots (container : option Ref)
    (recursive : option bool) : M LuaValue :=
  match container with
  | None => mret LuaNil
  | Some c =>
      w ← gets id;
      let slots := to_u32 (Container_capacity w c - Container_size w c) in
      let recursive := default false recursive in
      let slots := if recursive
                   then emptySlots_loop w (iterator env w c) slots
                   else slots in
      mret (LuaNumber slots)
  end.

(** [container:getItemHoldingCount()] *)
Definition luaContainerGetItemHoldingCount (container : option Ref) : M LuaValue :=
  match container with
  | Some c => n ← gets (fun w => getItemHoldingCount env w c); mret (LuaNumber n)
  | None => mret LuaNil
  end.

(** [container:getItem(index)] *)
Definition luaContainerGetItem (container : option Ref) (index : Z) : M LuaValue :=
  match container with
  | None => mret LuaNil
  | Some c =>
      item ← gets (fun w => Container_getItemByIndex w c index);
      match item with
      | Some i => mret (LuaUserdata i)
      | None => mret LuaNil
      end
  end.

(** [container:hasItem(item)] *)
Definition luaContainerHasItem (container : option Ref) (item : option Ref) : M LuaValue :=
  match container with
  | Some c => b ← gets (fun w => isHoldingItem env w c item); mret (LuaBoolean b)
  | None => mret LuaNil
  end.

(** The count [addItem] hands to the item factory: for a stackable type,
    [count = std::min<uint16_t>(count, it.stackSize)], where both arguments
    are converted to [uint16_t] before they are compared. *)
Definition addItem_count (it : ItemType) (count : Z) : Z :=
  if stackable it then Z.min (to_u16 count) (to_u16 (stackSize it)) else count.

Definition cannot_add_message (ret : ReturnValue) : string :=
  "Cannot add item to container, error code: '" +:+ getReturnMessage env ret +:+ "'".

(** [container:addItem(itemId[, count/subType = 1[, index = INDEX_WHEREEVER[, flags = 0]]])];
    [count] and [flags] are read as [uint32_t], [index] as [int32_t]. *)
Definition luaContainerAddItem (container : option Ref) (arg2 : ItemIdArg)
    (arg3 arg4 arg5 : option Z) : M LuaValue :=
  match container with
  | None =>
      reportErrorFunc "Container is nullptr";;
      mret LuaNil
  | Some c =>
      let itemId := match arg2 with
                    | ById n => n
                    | ByName name => getItemIdByName env name
                    end in
      match arg2, itemId =? 0 with
      | ByName _, true =>
          reportErrorFunc "Item id is wrong";;
          mret LuaNil
      | _, _ =>
          let count := default 1 arg3 in
          let it := items env itemId in
          let count := addItem_count it count in
          item ← CreateItem itemId count;
          match item with
          | None =>
              reportErrorFunc "Item is nullptr";;
              mret LuaNil
          | Some i =>
              let index := default (INDEX_WHEREEVER env) arg4 in
              let flags := default 0 arg5 in
              r ← Game_internalAddItem c i index flags;
              if r =? RETURNVALUE_NOERROR env
              then mret (LuaUserdata i)
              else reportErrorFunc (cannot_add_message r);;
                   mret (LuaBoolean false)
          end
      end
  end.

(** [container:addItemEx(item[, index = INDEX_WHEREEVER[, flags = 0]])] *)
Definition luaContainerAddItemEx (container : option Ref) (item : option Ref)
    (arg3 arg4 : option Z) : M LuaValue :=
  match item with
  | None => mret LuaNil
  | Some i =>
      match container with
      | None => mret LuaNil
      | Some c =>
          parent ← gets (fun w => getParent w i);
          if bool_decide (parent ≠ Some virtualCylinder)
          then reportErrorFunc "Item already has a parent";;
               mret LuaNil
          else
            let index := default (INDEX_WHEREEVER env) arg3 in
            let flags := default 0 arg4 in
            r ← Game_internalAddItem c i index flags;
            (if r =? RETURNVALUE_NOERROR env then removeTempItem i else mret tt);;
            mret (LuaNumber r)
      end
  end.

(** [container:getCorpseOwner()] *)
Definition luaContainerGetCorpseOwner (container : option Ref) : M LuaValue :=
  match container with
  | Some c => n ← gets (fun w => Container_getCorpseOwner w c); mret (LuaNumber n)
  | None => mret LuaNil
  end.

(** [container:getItemCountById(itemId[, subType = -1])] *)
Definition luaContainerGetItemCountById (container : option Ref) (arg2 : ItemIdArg)
    (arg3 : option Z) : M LuaValue :=
  match container with
  | None => mret LuaNil
  | Some c =>
      let itemId := match arg2 with
                    | ById n => n
                    | ByName name => getItemIdByName env name
                    end in
      match arg2, itemId =? 0 with
      | ByName _, true => mret LuaNil
      | _, _ =>
          let subType := default (-1) arg3 in
          n ← gets (fun w => getItemTypeCount env w c itemId subType);
          mret (LuaNumber n)
      end
  end.

(** [container:getContentDescription([oldProtocol])] *)
Definition luaContainerGetContentDescription (container : option Ref)
    (arg2 : option bool) : M LuaValue :=
  match container with
  | Some c =>
      s ← gets (fun w => getContentDescription env w c (default false arg2));
      mret (LuaString s)
  | None => mret LuaNil
  end.

(** The loop of [getItems]: [index++], then [lua_rawseti(L, -2, index)] with
    the item's userdata. *)
Fixpoint getItems_loop (l : list Ref) (index : Z) (t : gmap Z LuaValue)
    : gmap Z LuaValue :=
  match l with
  | [] => t
  | item :: l' =>
      let index := index + 1 in
      getItems_loop l' index (<[index := LuaUserdata item]> t)
  end.

(** [container:getItems([recursive = false])] *)
Definition luaContainerGetItems (container : option Ref) (arg2 : option bool)
    : M LuaValue :=
  match container with
  | None => mret LuaNil
  | Some c =>
      let recursive := default false arg2 in
      l ← gets (fun w => getItems env w c recursive);
      mret (LuaTable (getItems_loop l 0 ∅))
  end.

(** [container:registerReward()]. The item the factory returns is used
    without a test: a null item is dereferenced. [Item::CreateItem] is
    called with the type alone; the count is the factory's default, taken
    as 0. *)
Definition luaContainerRegisterReward (container : option Ref) : M LuaValue :=
  match container with
  | None => mret LuaNil
  | Some c =>
      rewardId ← getTimeMsNow;
      rewardContainer ← CreateItem (ITEM_REWARD_CONTAINER env) 0;
      match rewardContainer with
      | None => fault
      | Some r =>
          setAttribute r DATE rewardId;;
          setAttribute c DATE rewardId;;
          internalAddThing c r;;
          setRewardCorpse c;;
          mret (LuaBoolean true)
      end
  end.

(** ** The public operations, as calls

    One constructor per binding, with the arguments it reads. *)
Inductive Call : Type :=
  | CallCreate (id : Z)
  | CallGetSize (container : option Ref)
  | CallGetMaxCapacity (container : option Ref)
  | CallGetCapacity (container : option Ref)
  | CallGetEmptySlots (container : option Ref) (recursive : option bool)
  | CallGetItemHoldingCount (container : option Ref)
  | CallGetItem (container : option Ref) (index : Z)
  | CallHasItem (container : option Ref) (item : option Ref)
  | CallAddItem (container : option Ref) (arg2 : ItemIdArg) (arg3 arg4 arg5 : option Z)
  | CallAddItemEx (container : option Ref) (item : option Ref) (arg3 arg4 : option Z)
  | CallGetCorpseOwner (container : option Ref)
  | CallGetItemCountById (container : option Ref) (arg2 : ItemIdArg) (arg3 : option Z)
  | CallGetContentDescription (container : option Ref) (arg2 : option bool)
  | CallGetItems (container : option Ref) (arg2 : option bool)
  | CallRegisterReward (container : option Ref).

Definition run_call (call : Call) : M LuaValue :=
  match call with
  | CallCreate id => luaContainerCreate id
  | CallGetSize c => luaContainerGetSize c
  | CallGetMaxCapacity c => luaContainerGetMaxCapacity c
  | CallGetCapacity c => luaContainerGetCapacity c
  | CallGetEmptySlots c r => luaContainerGetEmptySlots c r
  | CallGetItemHoldingCount c => luaContainerGetItemHoldingCount c
  | CallGetItem c i => luaContainerGetItem c i
  | CallHasItem c i => luaContainerHasItem c i
  | CallAddItem c a2 a3 a4 a5 => luaContainerAddItem c a2 a3 a4 a5
  | CallAddItemEx c i a3 a4 => luaContainerAddItemEx c i a3 a4
  | CallGetCorpseOwner c => luaContainerGetCorpseOwner c
  | CallGetItemCountById c a2 a3 => luaContainerGetItemCountById c a2 a3
  | CallGetContentDescription c a2 => luaContainerGetContentDescription c a2
  | CallGetItems c a2 => luaContainerGetItems c a2
  | CallRegisterReward c => luaContainerRegisterReward c
  end.

(** The container reference a call works on: the userdata of its first
    argument, or, for the constructor, the container its uid resolves to. *)
Definition call_container (w : World) (call : Call) : option Ref :=
  match call with
  | CallCreate id => getContainerByUID env w id
  | CallGetSize c | CallGetMaxCapacity c | CallGetCapacity c
  | CallGetEmptySlots c _ | CallGetItemHoldingCount c | CallGetItem c _
  | CallHasItem c _ | CallAddItem c _ _ _ _ | CallAddItemEx c _ _ _
  | CallGetCorpseOwner c | CallGetItemCountById c _ _
  | CallGetContentDescription c _ | CallGetItems c _
  | CallRegisterReward c => c
  end.

End Bindings.

(** The calls that change the container. *)
Definition mutating (call : Call) : bool :=
  match call with
  | CallAddItem _ _ _ _ _ | CallAddItemEx _ _ _ _ | CallRegisterReward _ => true
  | _ => false
  end.

Definition is_addItem (call : Call) : bool :=
  match call with CallAddItem _ _ _ _ _ => true | _ => false end.

(** ** What the queries should compute *)

(** The free slots of one container: [capacity() - size()]. *)
Definition free_slots (env : Env) (w : World) (c : Ref) : Z :=
  Container_capacity env w c - Container_size w c.

(** The containers among the items the iterator of [c] yields. *)
Definition nested_containers (env : Env) (w : World) (c : Ref) : list Ref :=
  filter (fun x => is_Some (getContainer w x)) (iterator env w c).

Definition sumZ (l : list Z) : Z := foldr Z.add 0 l.

(** The free slots of [c], with those of its nested containers when asked. *)
Definition total_free_slots (env : Env) (w : World) (c : Ref) (recursive : bool) : Z :=
  free_slots env w c
  + (if recursive then sumZ (free_slots env w <$> nested_containers env w c) else 0).

(** ** What [addItem] should do *)

(** The item id [addItem] works with, and when its second argument
    resolves: a number always does, a name when the catalog knows it. *)
Definition requested_id (env : Env) (arg2 : ItemIdArg) : Z :=
  match arg2 with
  | ById n => n
  | ByName name => getItemIdByName env name
  end.

Definition resolvable (env : Env) (arg2 : ItemIdArg) : Prop :=
  match arg2 with
  | ById _ => True
  | ByName name => getItemIdByName env name ≠ 0
  end.

(** [w1] is [w] with one more object, [r], an item of type [id] and count
    [count] that is in limbo and has no attribute. *)
Definition creates (w : World) (r : Ref) (id count : Z) (w1 : World) : Prop :=
  heap w !! r = None
  ∧ (∃ it, heap w1 = <[r := it]> (heap w)
           ∧ item_id it = id ∧ item_count it = count
           ∧ item_parent it = Some virtualCylinder ∧ item_attributes it = ∅)
  ∧ tempItems w1 = tempItems w
  ∧ errors w1 = errors w
  ∧ clock_reads w1 = clock_reads w.

(** The engine's answer in the caller's convention: the item for
    [RETURNVALUE_NOERROR], else false and a report of the return code. *)
Definition addItem_answer (env : Env) (item : Ref) (a : ReturnValue * World)
    : Outcome LuaValue :=
  if decide (a.1 = RETURNVALUE_NOERROR env)
  then Done (LuaUserdata item) a.2
  else Done (LuaBoolean false)
            (with_errors (fun l => l ++ ["Cannot add item to container, error code: '"
                                         +:+ getReturnMessage env a.1 +:+ "'"]) a.2).

(** The objects a call has created, and the units they hold together. *)
Definition new_objects (w w' : World) : list Ref :=
  elements (dom (heap w') ∖ dom (heap w)).

Definition units_created (w w' : World) : Z :=
  sumZ ((fun r => default 0 (getCount w' r)) <$> new_objects w w').

(** ** Another engine under the same bindings *)

(** [env] with its insertion engine replaced. *)
Definition with_engine
    (engine : Ref -> Ref -> Z -> Z -> World -> ReturnValue * World) (env : Env) : Env :=
  mkEnv (items env) (getItemIdByName env) (ITEM_REWARD_CONTAINER env)
        (INDEX_WHEREEVER env) (RETURNVALUE_NOERROR env) (UNBOUNDED_CAPACITY env)
        (getReturnMessage env) engine (clock env) (getContainerByUID env)
        (iterator env) (getItems env) (getItemHoldingCount env) (isHoldingItem env)
        (getItemTypeCount env) (getContentDescription env).

(** ** What holds of every call *)

(** The calls whose nil can only mean an absent container: all but
    [getItem], [addItem], [addItemEx] and [getItemCountById], which push nil
    for other reasons too. *)
Definition nil_means_absent (call : Call) : bool :=
  match call with
  | CallGetItem _ _ | CallAddItem _ _ _ _ _ | CallAddItemEx _ _ _ _
  | CallGetItemCountById _ _ _ => false
  | _ => true
  end.

(** An insertion engine that reports nothing through [reportErrorFunc]. *)
Definition engine_silent (env : Env) : Prop :=
  ∀ (c item : Ref) (index flags : Z) (w : World),
    errors (internalAddItem env c item index flags w).2 = errors w.

(** From [w] to [w'] no object is destroyed, no temporary item is made, no
    report is erased and the clock is not turned back. *)
Definition grows (w w' : World) : Prop :=
  dom (heap w) ⊆ dom (heap w')
  ∧ tempItems w' ⊆ tempItems w
  ∧ errors w `prefix_of` errors w'
  ∧ (clock_reads w <= clock_reads w')%nat.

(** An insertion engine that keeps to this. *)
Definition engine_frame (env : Env) : Prop :=
  ∀ (c item : Ref) (index flags : Z) (w : World),
    grows w (internalAddItem env c item index flags w).2.

(** A Lua table read as an array: the values at the keys [k], [k + 1], ...
    up to the first key that is absent. *)
Fixpoint table_array (fuel : nat) (t : gmap Z LuaValue) (k : Z) : list LuaValue :=
  match fuel with
  | O => []
  | S n =>
      match t !! k with
      | Some v => v :: table_array n t (k + 1)
      | None => []
      end
  end.

(** ** A sample engine

    A small catalog, an insertion engine that accepts an item when the
    container has a free slot, and a depth-first iterator: a concrete [Env]
    on which the bindings run. *)
Module Sample.

Definition GOLD_COIN : Z := 3031.
Definition BACKPACK : Z := 2854.
Definition BAG : Z := 2853.
Definition REWARD_CONTAINER : Z := 19202.
Definition NOT_ENOUGH_ROOM : ReturnValue := 6.

Definition catalog (id : Z) : ItemType :=
  if id =? GOLD_COIN then mkItemType id true 100 0
  else if id =? BACKPACK then mkItemType id false 1 20
  else if id =? BAG then mkItemType id false 1 8
  else if id =? REWARD_CONTAINER then mkItemType id false 1 32
  else mkItemType 0 false 1 0.

Definition idByName (name : string) : Z :=
  if String.eqb name "gold coin" then GOLD_COIN
  else if String.eqb name "backpack" then BACKPACK
  else 0.

Definition returnMessage (r : ReturnValue) : string :=
  if r =? 0 then "" else "There is not enough room.".

(** The insertion engine: a free slot is needed. *)
Definition insert (c item : Ref) (index flags : Z) (w : World) : ReturnValue * World :=
  if Container_size w c <? Container_getMaxCapacity w c
  then match internalAddThing c item w with
       | Done _ w' => (0, w')
       | NullDereference => (NOT_ENOUGH_ROOM, w)
       end
  else (NOT_ENOUGH_ROOM, w).

(** Modelled from the spec: the [ContainerIterator], defined outside the
    bindings, visits the slots in index order and the contents of a visited
    container before that container's next sibling. Every step yields one
    item, so the number of live objects bounds the walk of a well-formed
    store. *)
Fixpoint walk (fuel : nat) (w : World) (todo : list Ref) : list Ref :=
  match fuel with
  | O => []
  | S n =>
      match todo with
      | [] => []
      | x :: rest => x :: walk n w (slots_of w x ++ rest)
      end
  end.

Definition depth_first (w : World) (c : Ref) : list Ref :=
  walk (size (heap w)) w (slots_of w c).

Definition count_of (w : World) (id subType : Z) (r : Ref) : Z :=
  match heap w !! r with
  | Some i =>
      if (item_id i =? id) && ((subType =? -1) || (item_count i =? subType))
      then Z.max 1 (item_count i) else 0
  | None => 0
  end.

Definition env : Env := {|
  items := catalog;
  getItemIdByName := idByName;
  ITEM_REWARD_CONTAINER := REWARD_CONTAINER;
  INDEX_WHEREEVER := -1;
  RETURNVALUE_NOERROR := 0;
  UNBOUNDED_CAPACITY := 2 ^ 32 - 1;
  getReturnMessage := returnMessage;
  internalAddItem := insert;
  clock := fun n => 1700000000000 + Z.of_nat n;
  getContainerByUID := fun _ _ => None;
  iterator := depth_first;
  getItems := fun w c recursive => if recursive then depth_first w c else slots_of w c;
  getItemHoldingCount := fun w c => Z.of_nat (length (depth_first w c));
  isHoldingItem := fun w c item =>
    match item with
    | Some i => bool_decide (i ∈ depth_first w c)
    | None => false
    end;
  getItemTypeCount := fun w c id subType =>
    foldr Z.add 0 (count_of w id subType <$> depth_first w c);
  getContentDescription := fun _ _ _ => "nothing"
|}.

Definition coin (n : Z) (p : option Cylinder) : Item :=
  mkItem GOLD_COIN n p ∅ None.

Definition box (id cap : Z) (p : option Cylinder) (l : list Ref) : Item :=
  mkItem id 1 p ∅ (Some (mkContainer cap false l 0 false)).

(** No object at all. *)
Definition nowhere : World := mkWorld ∅ ∅ [] 0.

Definition backpack : Ref := 1%positive.
Definition coins : Ref := 2%positive.
Definition bag : Ref := 3%positive.
Definition coin_in_bag : Ref := 4%positive.
Definition loose_coins : Ref := 5%positive.

(** An empty backpack. *)
Definition shelf : World :=
  mkWorld {[ backpack := box BACKPACK 20 None [] ]} ∅ [] 0.

(** A backpack that holds a stack of coins and a bag with a coin in it; a
    stack of coins in limbo that a script made. *)
Definition camp : World :=
  mkWorld (list_to_map
             [ (backpack, box BACKPACK 20 None [coins; bag]);
               (coins, coin 40 (Some (containerCylinder backpack)));
               (bag, box BAG 8 (Some (containerCylinder backpack)) [coin_in_bag]);
               (coin_in_bag, coin 1 (Some (containerCylinder bag)));
               (loose_coins, coin 7 (Some virtualCylinder)) ])
          {[ loose_coins ]} [] 0.

(** A bag of one slot that holds two coins. *)
Definition crammed : World :=
  mkWorld (list_to_map
             [ (bag, box BAG 1 None [coins; coin_in_bag]);
               (coins, coin 1 (Some (containerCylinder bag)));
               (coin_in_bag, coin 1 (Some (containerCylinder bag))) ])
          ∅ [] 0.

(** The sample engine with an insertion engine that refuses every item and
    touches nothing. *)
Definition refusing : Env :=
  with_engine (fun _ _ _ _ w => (NOT_ENOUGH_ROOM, w)) env.

End Sample.

(** * Properties *)

Section Properties.

Context (env : Env).

Implicit Types (w : World) (c i r : Ref).

(** Lookups in a store after a chain of updates. *)
Ltac heap_lookup :=
  repeat first
    [ rewrite lookup_alter_eq
    | rewrite lookup_alter_ne by congruence
    | rewrite lookup_insert_eq
    | rewrite lookup_insert_ne by congruence ].

(** ** Absent container references *)

(** C2, as the code has it: every public operation answers a call on an
    absent container reference with nil. Only [addItem] also reports an
    error, "Container is nullptr"; every other operation, [addItemEx] and
    [registerReward] among them, leaves the world as it was. *)
Theorem absent_container_rejected (call : Call) w :
  call_container env w call = None →
  run_call env call w =
    Done LuaNil
      (if is_addItem call
       then with_errors (fun l => l ++ ["Container is nullptr"]) w
       else w).
Proof.
  destruct call as [id| | | | | | | |? ? ? ? ?|? item ? ?| | | | |];
    simpl; intros Hc; try (rewrite Hc; reflexivity).
  - unfold luaContainerCreate, mbind, M_bind, gets. rewrite Hc. reflexivity.
  - rewrite Hc. destruct item; reflexivity.
Qed.

(** C7, as the code has it: on an absent container reference
    [registerReward] pushes nil, which a Lua condition takes for false,
    reports nothing and changes nothing. *)
Theorem registerReward_absent w :
  luaContainerRegisterReward env None w = Done LuaNil w
  ∧ lua_toboolean LuaNil = false.
Proof. split; reflexivity. Qed.

(** ** The custody check of [addItemEx] *)

(** C3: an item whose parent is not the virtual cylinder is refused by
    [addItemEx]: the binding reports "Item already has a parent", pushes nil
    and does not call the insertion engine, so that no object and no
    temporary item changes. *)
Theorem addItemEx_already_owned w c i (arg3 arg4 : option Z) :
  getParent w i ≠ Some virtualCylinder →
  ∃ w', luaContainerAddItemEx env (Some c) (Some i) arg3 arg4 w = Done LuaNil w'
        ∧ heap w' = heap w
        ∧ tempItems w' = tempItems w
        ∧ clock_reads w' = clock_reads w
        ∧ errors w' = errors w ++ ["Item already has a parent"].
Proof.
  intros Hp. eexists. split.
  - unfold luaContainerAddItemEx, mbind, M_bind, gets.
    rewrite bool_decide_eq_true_2 by exact Hp. reflexivity.
  - repeat split; reflexivity.
Qed.

(** C9: for an item in limbo [addItemEx] calls the insertion engine once and
    pushes the number of its return value, whatever it is; the item leaves
    the temporary items exactly when that value is [RETURNVALUE_NOERROR],
    and nothing else changes after the engine has run. *)
Theorem addItemEx_limbo w c i (arg3 arg4 : option Z) :
  getParent w i = Some virtualCylinder →
  let index := default (INDEX_WHEREEVER env) arg3 in
  let flags := default 0 arg4 in
  let ret := (internalAddItem env c i index flags w).1 in
  let w1 := (internalAddItem env c i index flags w).2 in
  ∃ w', luaContainerAddItemEx env (Some c) (Some i) arg3 arg4 w = Done (LuaNumber ret) w'
        ∧ heap w' = heap w1
        ∧ errors w' = errors w1
        ∧ clock_reads w' = clock_reads w1
        ∧ tempItems w' = (if decide (ret = RETURNVALUE_NOERROR env)
                          then tempItems w1 ∖ {[i]} else tempItems w1).
Proof.
  intros Hp index flags ret w1.
  unfold luaContainerAddItemEx, mbind, M_bind, gets, Game_internalAddItem.
  rewrite bool_decide_eq_false_2 by (intros H; apply H; exact Hp).
  fold index flags. subst ret w1.
  destruct (internalAddItem env c i index flags w) as [ret w1]; simpl.
  destruct (Z.eqb_spec ret (RETURNVALUE_NOERROR env)) as [E|E].
  - eexists; split; [reflexivity|]. rewrite decide_True by exact E.
    repeat split; reflexivity.
  - eexists; split; [reflexivity|]. rewrite decide_False by exact E.
    repeat split; reflexivity.
Qed.

(** ** The table of [getItems] *)

Lemma getItems_loop_lookup (l : list Ref) (index : Z) (t : gmap Z LuaValue) (k : Z) :
  getItems_loop l index t !! k =
    if decide (index < k <= index + Z.of_nat (length l))
    then LuaUserdata <$> l !! Z.to_nat (k - index - 1)
    else t !! k.
Proof.
  revert index t. induction l as [|item l IH]; intros index t; simpl getItems_loop.
  - rewrite decide_False by (simpl; lia). reflexivity.
  - rewrite IH. rewrite length_cons.
    destruct (decide (k = index + 1)) as [->|Hk].
    + rewrite decide_False by lia. rewrite lookup_insert_eq.
      rewrite decide_True by lia.
      replace (index + 1 - index - 1) with 0 by lia. reflexivity.
    + rewrite lookup_insert_ne by lia.
      destruct (decide (index + 1 < k <= index + 1 + Z.of_nat (length l))) as [H|H].
      * rewrite decide_True by lia.
        replace (Z.to_nat (k - index - 1)) with (S (Z.to_nat (k - (index + 1) - 1))) by lia.
        reflexivity.
      * rewrite decide_False by lia. reflexivity.
Qed.

(** C10: [getItems] pushes a table that holds the items of the sequence the
    container materializes, the n-th of them at key n, counted from 1, and
    that has no other key; the world is left as it was. *)
Theorem getItems_table w c (arg2 : option bool) :
  let l := getItems env w c (default false arg2) in
  ∃ t, luaContainerGetItems env (Some c) arg2 w = Done (LuaTable t) w
       ∧ (∀ n : nat, t !! (Z.of_nat n + 1) = LuaUserdata <$> l !! n)
       ∧ (∀ k : Z, is_Some (t !! k) ↔ 1 <= k <= Z.of_nat (length l)).
Proof.
  intros l. exists (getItems_loop l 0 ∅). split; [reflexivity|]. split.
  - intros n. rewrite getItems_loop_lookup.
    destruct (decide (n < length l)%nat) as [H|H].
    + rewrite decide_True by lia. f_equal. f_equal. lia.
    + rewrite decide_False by lia. rewrite lookup_empty.
      rewrite (proj2 (lookup_ge_None l n)) by lia. reflexivity.
  - intros k. rewrite getItems_loop_lookup.
    destruct (decide (0 < k <= 0 + Z.of_nat (length l))) as [H|H].
    + split; [lia|]. intros _.
      destruct (lookup_lt_is_Some_2 l (Z.to_nat (k - 0 - 1))) as [x Hx]; [lia|].
      rewrite Hx. eexists; reflexivity.
    + rewrite lookup_empty. split; [intros [? ?]; discriminate | lia].
Qed.

(** ** The free slots *)

Lemma to_u32_idemp (z : Z) : to_u32 (to_u32 z) = to_u32 z.
Proof. unfold to_u32. apply Z.mod_mod. lia. Qed.

Lemma to_u32_add_l (a b : Z) : to_u32 (to_u32 a + b) = to_u32 (a + b).
Proof. unfold to_u32. apply Zplus_mod_idemp_l. Qed.

Lemma to_u32_range (z : Z) : in_u32 (to_u32 z).
Proof. unfold in_u32, to_u32. apply Z.mod_pos_bound. lia. Qed.

Lemma to_u32_small (z : Z) : in_u32 z → to_u32 z = z.
Proof. unfold in_u32, to_u32. intros H. apply Z.mod_small. exact H. Qed.

(** The loop adds the free slots of the containers it meets, modulo 2^32. *)
Lemma emptySlots_loop_sum w (it : list Ref) (slots : Z) :
  to_u32 (emptySlots_loop env w it slots) =
  to_u32 (slots + sumZ (free_slots env w <$>
                          filter (fun x => is_Some (getContainer w x)) it)).
Proof.
  revert slots. induction it as [|x it IH]; intros slots; simpl emptySlots_loop.
  - simpl. f_equal. lia.
  - rewrite IH. destruct (getContainer w x) as [k|] eqn:Hk.
    + rewrite filter_cons_True by (rewrite Hk; eexists; reflexivity).
      rewrite fmap_cons. simpl sumZ. rewrite to_u32_add_l.
      unfold free_slots at 2. f_equal. lia.
    + rewrite filter_cons_False by (rewrite Hk; intros [? ?]; discriminate).
      reflexivity.
Qed.

Lemma emptySlots_loop_range w (it : list Ref) (slots : Z) :
  in_u32 slots → in_u32 (emptySlots_loop env w it slots).
Proof.
  revert slots. induction it as [|x it IH]; intros slots Hs; simpl; [exact Hs|].
  apply IH. destruct (getContainer w x); [apply to_u32_range | exact Hs].
Qed.

(** C5: [getEmptySlots] pushes [capacity() - size()] of the container and,
    when [recursive] is true, adds [capacity() - size()] of every container
    among the items its iterator yields. The sum is a [uint32_t]: it is
    taken modulo 2^32, and is the exact number whenever that fits. *)
Theorem getEmptySlots_total w c (recursive : option bool) :
  let total := total_free_slots env w c (default false recursive) in
  luaContainerGetEmptySlots env (Some c) recursive w = Done (LuaNumber (to_u32 total)) w
  ∧ (in_u32 total →
     luaContainerGetEmptySlots env (Some c) recursive w = Done (LuaNumber total) w).
Proof.
  intros total.
  assert (H : luaContainerGetEmptySlots env (Some c) recursive w
              = Done (LuaNumber (to_u32 total)) w).
  { unfold luaContainerGetEmptySlots, mbind, M_bind, gets, mret, M_ret. simpl.
    f_equal. f_equal. subst total. unfold total_free_slots.
    destruct (default false recursive).
    - rewrite <- (to_u32_small (emptySlots_loop _ _ _ _))
        by (apply emptySlots_loop_range, to_u32_range).
      rewrite emptySlots_loop_sum, to_u32_add_l. reflexivity.
    - f_equal. unfold free_slots. lia. }
  split; [exact H|]. intros Ht. rewrite H, (to_u32_small total Ht). reflexivity.
Qed.

(** ** Creation and insertion in [addItem] *)

(** The factory makes an item of every type the catalog has. *)
Lemma CreateItem_creates w (id count : Z) :
  type_id (items env id) ≠ 0 →
  ∃ r w1, CreateItem env id count w = Done (Some r) w1 ∧ creates w r id count w1.
Proof.
  intros Hid. unfold CreateItem.
  rewrite (proj2 (Z.eqb_neq _ _) Hid).
  eexists _, _. split; [reflexivity|].
  split; [apply not_elem_of_dom, is_fresh|].
  split; [|repeat split; reflexivity].
  eexists. split; [reflexivity|]. repeat split; reflexivity.
Qed.

(** With a resolvable id of a known type, [addItem] creates one item, with
    the count [addItem_count] gives, hands it to the insertion engine once,
    and converts the engine's answer. *)
Lemma addItem_run w c (arg2 : ItemIdArg) (arg3 arg4 arg5 : option Z) :
  resolvable env arg2 →
  let id := requested_id env arg2 in
  type_id (items env id) ≠ 0 →
  ∃ item w1,
    creates w item id (addItem_count (items env id) (default 1 arg3)) w1
    ∧ luaContainerAddItem env (Some c) arg2 arg3 arg4 arg5 w =
        addItem_answer env item
          (internalAddItem env c item (default (INDEX_WHEREEVER env) arg4)
             (default 0 arg5) w1).
Proof.
  intros Hres id Hid.
  destruct (CreateItem_creates w id
              (addItem_count (items env id) (default 1 arg3)) Hid)
    as (item & w1 & Hcreate & Hw1).
  exists item, w1. split; [exact Hw1|].
  assert (Hrun : luaContainerAddItem env (Some c) arg2 arg3 arg4 arg5 w =
                 (item ← CreateItem env id (addItem_count (items env id) (default 1 arg3));
                  match item with
                  | None => reportErrorFunc "Item is nullptr";; mret LuaNil
                  | Some i =>
                      r ← Game_internalAddItem env c i (default (INDEX_WHEREEVER env) arg4)
                            (default 0 arg5);
                      if r =? RETURNVALUE_NOERROR env
                      then mret (LuaUserdata i)
                      else reportErrorFunc (cannot_add_message env r);;
                           mret (LuaBoolean false)
                  end) w).
  { unfold luaContainerAddItem. destruct arg2 as [n|name]; [reflexivity|].
    simpl in Hres. apply Z.eqb_neq in Hres. cbv zeta. rewrite Hres.
    reflexivity. }
  rewrite Hrun. unfold mbind at 1, M_bind at 1. rewrite Hcreate.
  unfold mbind, M_bind, Game_internalAddItem, addItem_answer.
  destruct (internalAddItem env c item _ _ w1) as [ret w2]; simpl.
  destruct (Z.eqb_spec ret (RETURNVALUE_NOERROR env)) as [E|E].
  - rewrite decide_True by exact E. reflexivity.
  - rewrite decide_False by exact E. reflexivity.
Qed.

(** C6: [addItem] on a container, with a resolvable id of a type the factory
    can make, hands the new item to the insertion engine; when the engine
    returns [RETURNVALUE_NOERROR] the caller receives the item, and
    otherwise the boolean false, after a report that names the return
    value. *)
Theorem addItem_converts_return_value w c (arg2 : ItemIdArg)
    (arg3 arg4 arg5 : option Z) :
  resolvable env arg2 →
  type_id (items env (requested_id env arg2)) ≠ 0 →
  ∃ item w1 count,
    creates w item (requested_id env arg2) count w1
    ∧ let index := default (INDEX_WHEREEVER env) arg4 in
      let flags := default 0 arg5 in
      let ret := (internalAddItem env c item index flags w1).1 in
      let w2 := (internalAddItem env c item index flags w1).2 in
      (ret = RETURNVALUE_NOERROR env →
         luaContainerAddItem env (Some c) arg2 arg3 arg4 arg5 w
         = Done (LuaUserdata item) w2)
      ∧ (ret ≠ RETURNVALUE_NOERROR env →
         ∃ w', luaContainerAddItem env (Some c) arg2 arg3 arg4 arg5 w
               = Done (LuaBoolean false) w'
               ∧ errors w' = errors w2 ++
                   ["Cannot add item to container, error code: '"
                    +:+ getReturnMessage env ret +:+ "'"]
               ∧ heap w' = heap w2
               ∧ tempItems w' = tempItems w2).
Proof.
  intros Hres Hid.
  destruct (addItem_run w c arg2 arg3 arg4 arg5 Hres Hid) as (item & w1 & Hc & Hrun).
  exists item, w1, (addItem_count (items env (requested_id env arg2)) (default 1 arg3)).
  split; [exact Hc|]. cbv zeta. rewrite Hrun. unfold addItem_answer. split.
  - intros E. rewrite decide_True by exact E. reflexivity.
  - intros E. rewrite decide_False by exact E. eexists. split; [reflexivity|].
    repeat split; reflexivity.
Qed.

Lemma to_u16_small (z : Z) : in_u16 z → to_u16 z = z.
Proof. unfold in_u16, to_u16. intros H. apply Z.mod_small. exact H. Qed.

(** C4, as the code has it: for a stackable type [addItem] creates one item
    and hands only that item to the insertion engine. Its count never
    exceeds the [stackSize] of the catalog, and is the smaller of the
    requested count and [stackSize] when the request fits 16 bits: what is
    requested beyond [stackSize] is dropped. *)
Theorem addItem_stack_clamped w c (arg2 : ItemIdArg) (arg3 arg4 arg5 : option Z) :
  resolvable env arg2 →
  let it := items env (requested_id env arg2) in
  type_id it ≠ 0 →
  stackable it = true →
  in_u16 (stackSize it) →
  ∃ item w1 count,
    creates w item (requested_id env arg2) count w1
    ∧ count <= stackSize it
    ∧ (in_u16 (default 1 arg3) → count = Z.min (default 1 arg3) (stackSize it))
    ∧ luaContainerAddItem env (Some c) arg2 arg3 arg4 arg5 w =
        addItem_answer env item
          (internalAddItem env c item (default (INDEX_WHEREEVER env) arg4)
             (default 0 arg5) w1).
Proof.
  intros Hres it Hid Hst Hsz.
  destruct (addItem_run w c arg2 arg3 arg4 arg5 Hres Hid) as (item & w1 & Hc & Hrun).
  exists item, w1, (addItem_count it (default 1 arg3)).
  split; [exact Hc|]. unfold addItem_count. rewrite Hst.
  rewrite (to_u16_small _ Hsz). split; [lia|]. split; [|exact Hrun].
  intros Hcount. rewrite (to_u16_small _ Hcount). reflexivity.
Qed.

(** C8: for a stackable type the requested count is taken modulo 2^16 before
    it is compared with [stackSize]; a request of 65537 creates an item of
    count 1, below the request and below any [stackSize] above 1. *)
Theorem addItem_count_truncated w c (arg2 : ItemIdArg) (arg3 arg4 arg5 : option Z) :
  resolvable env arg2 →
  let it := items env (requested_id env arg2) in
  type_id it ≠ 0 →
  stackable it = true →
  in_u16 (stackSize it) →
  ∃ item w1 count,
    creates w item (requested_id env arg2) count w1
    ∧ count = Z.min (default 1 arg3 mod 2 ^ 16) (stackSize it)
    ∧ (arg3 = Some 65537 → 1 < stackSize it →
       count = 1 ∧ count < 65537 ∧ count < stackSize it)
    ∧ luaContainerAddItem env (Some c) arg2 arg3 arg4 arg5 w =
        addItem_answer env item
          (internalAddItem env c item (default (INDEX_WHEREEVER env) arg4)
             (default 0 arg5) w1).
Proof.
  intros Hres it Hid Hst Hsz.
  destruct (addItem_run w c arg2 arg3 arg4 arg5 Hres Hid) as (item & w1 & Hc & Hrun).
  exists item, w1, (addItem_count it (default 1 arg3)).
  split; [exact Hc|]. unfold addItem_count. rewrite Hst.
  rewrite (to_u16_small _ Hsz). unfold to_u16. split; [reflexivity|].
  split; [|exact Hrun].
  intros -> Hbig. simpl default.
  replace (65537 mod 2 ^ 16) with 1 by reflexivity. lia.
Qed.

(** ** Reward registration *)

(** What one registration does to the store: on a container, and with a
    catalog that knows the reward type, [registerReward] reads the clock
    once, creates one new item of type [ITEM_REWARD_CONTAINER], puts it in
    the slots of the container, sets the [DATE] attribute of the new item
    and of the container to that one reading, sets the reward flag of the
    container and pushes true. *)
Theorem registerReward_registers w c :
  is_Some (getContainer w c) →
  type_id (items env (ITEM_REWARD_CONTAINER env)) ≠ 0 →
  let rewardId := clock env (clock_reads w) in
  ∃ r w',
    luaContainerRegisterReward env (Some c) w = Done (LuaBoolean true) w'
    ∧ clock_reads w' = S (clock_reads w)
    ∧ heap w !! r = None
    ∧ item_id <$> heap w' !! r = Some (ITEM_REWARD_CONTAINER env)
    ∧ slots_of w' c ≡ₚ r :: slots_of w c
    ∧ getParent w' r = Some (containerCylinder c)
    ∧ getAttribute w' r DATE = Some rewardId
    ∧ getAttribute w' c DATE = Some rewardId
    ∧ isRewardCorpse w' c = true
    ∧ (∀ x, x ≠ c → x ≠ r → heap w' !! x = heap w !! x)
    ∧ tempItems w' = tempItems w
    ∧ errors w' = errors w.
Proof.
  intros [k Hk] Hid rewardId.
  unfold getContainer in Hk.
  destruct (heap w !! c) as [ic|] eqn:Hc; [simpl in Hk|discriminate].
  set (r := fresh (dom (heap w))).
  assert (Hr : heap w !! r = None) by apply not_elem_of_dom, is_fresh.
  assert (Hne : c ≠ r) by (intros ->; congruence).
  exists r. eexists. split.
  { unfold luaContainerRegisterReward, mbind, M_bind, getTimeMsNow, CreateItem.
    simpl. rewrite (proj2 (Z.eqb_neq _ _) Hid). reflexivity. }
  fold r. fold rewardId. clearbody r rewardId.
  simpl clock_reads. simpl tempItems. simpl errors.
  unfold slots_of, getParent, getAttribute, isRewardCorpse, getContainer.
  simpl heap.
  split; [reflexivity|]. split; [exact Hr|].
  split; [heap_lookup; reflexivity|].
  split; [heap_lookup; rewrite Hc; simpl; rewrite Hk; simpl;
          symmetry; apply Permutation_cons_append|].
  split; [heap_lookup; reflexivity|].
  split; [heap_lookup; reflexivity|].
  split; [heap_lookup; rewrite Hc; simpl; apply lookup_insert_eq|].
  split; [heap_lookup; rewrite Hc; simpl; rewrite Hk; reflexivity|].
  split; [|split; reflexivity].
  intros x Hxc Hxr. heap_lookup. reflexivity.
Qed.

(** C1, as the code has it: on a container, when the factory yields the
    reward item, [registerReward] reads the clock once, creates one new item
    of type [ITEM_REWARD_CONTAINER], sets the [DATE] attribute of the new
    item and of the container to that one reading, sets the reward flag of
    the container and pushes true. The item is put in the slots by
    [Container::internalAddThing], not by the insertion engine
    [Game::internalAddItem]: the container holds one item more whatever its
    capacity, and the call does the same under every insertion engine. *)
Theorem registerReward_bypasses_engine w c :
  is_Some (getContainer w c) →
  type_id (items env (ITEM_REWARD_CONTAINER env)) ≠ 0 →
  let rewardId := clock env (clock_reads w) in
  ∃ r w',
    luaContainerRegisterReward env (Some c) w = Done (LuaBoolean true) w'
    ∧ (∀ engine,
         luaContainerRegisterReward (with_engine engine env) (Some c) w
         = Done (LuaBoolean true) w')
    ∧ clock_reads w' = S (clock_reads w)
    ∧ heap w !! r = None
    ∧ item_id <$> heap w' !! r = Some (ITEM_REWARD_CONTAINER env)
    ∧ slots_of w' c ≡ₚ r :: slots_of w c
    ∧ Container_size w' c = Container_size w c + 1
    ∧ getParent w' r = Some (containerCylinder c)
    ∧ getAttribute w' r DATE = Some rewardId
    ∧ getAttribute w' c DATE = Some rewardId
    ∧ isRewardCorpse w' c = true
    ∧ (∀ x, x ≠ c → x ≠ r → heap w' !! x = heap w !! x)
    ∧ tempItems w' = tempItems w
    ∧ errors w' = errors w.
Proof.
  intros Hc Hid rewardId.
  destruct (registerReward_registers w c Hc Hid)
    as (r & w' & Hrun & Hclock & Hfresh & Hty & Hslots & Hpar & Hdr & Hdc & Hflag
        & Hframe & Htemp & Herr).
  exists r, w'. split; [exact Hrun|].
  split; [intros engine; rewrite <- Hrun; reflexivity|].
  split; [exact Hclock|]. split; [exact Hfresh|]. split; [exact Hty|].
  split; [exact Hslots|].
  split; [unfold Container_size; rewrite Hslots; simpl length; lia|].
  split; [exact Hpar|]. split; [exact Hdr|]. split; [exact Hdc|].
  split; [exact Hflag|]. split; [exact Hframe|]. split; [exact Htemp|exact Herr].
Qed.

(** Without the reward type in the catalog the factory returns null, and
    [registerReward] dereferences it. *)
Lemma registerReward_unknown_reward_type w c :
  type_id (items env (ITEM_REWARD_CONTAINER env)) = 0 →
  luaContainerRegisterReward env (Some c) w = NullDereference.
Proof.
  intros Hid.
  unfold luaContainerRegisterReward, mbind, M_bind, getTimeMsNow, CreateItem.
  simpl. rewrite Hid. reflexivity.
Qed.

End Properties.

(** * Further properties of the bindings *)

Section Further.

Context (env : Env).

Implicit Types (w : World) (c i r : Ref).

(** ** What nil means *)

(** For every binding but [getItem], [addItem], [addItemEx] and
    [getItemCountById], the pushed value is nil exactly when the container
    reference is absent. *)
Theorem nil_exactly_when_absent (call : Call) w (v : LuaValue) w' :
  nil_means_absent call = true →
  run_call env call w = Done v w' →
  v = LuaNil ↔ call_container env w call = None.
Proof.
  destruct call as [id|k|k|k|k ?|k|k ?|k ?| | |k|k a2 ?|k ?|k ?|k];
    try discriminate; intros _; simpl;
    try (destruct k as [c|]; intros [= <- <-]; split; intros; congruence).
  - unfold luaContainerCreate, mbind, M_bind, gets.
    destruct (getContainerByUID env w id); intros [= <- <-]; split; congruence.
  - destruct k as [c|]; [|intros [= <- <-]; split; congruence].
    unfold luaContainerRegisterReward, mbind, M_bind, getTimeMsNow, CreateItem.
    simpl. destruct (type_id _ =? 0); [discriminate|].
    intros [= <- <-]; split; congruence.
Qed.

(** ** The failures and the counts of [addItem] *)

(** [addItem] fails early in two ways: on a name the catalog does not know,
    with the report "Item id is wrong", and on an id whose item the factory
    cannot make, with "Item is nullptr". Either way it pushes nil, creates
    no object and never reaches the insertion engine. A numeric id is not
    tested against 0: it fails at the factory. *)
Theorem addItem_early_failure w c (arg2 : ItemIdArg) (arg3 arg4 arg5 : option Z) :
  ¬ resolvable env arg2 ∨ type_id (items env (requested_id env arg2)) = 0 →
  ∃ msg,
    luaContainerAddItem env (Some c) arg2 arg3 arg4 arg5 w
    = Done LuaNil (with_errors (fun l => l ++ [msg]) w)
    ∧ (¬ resolvable env arg2 → msg = "Item id is wrong")
    ∧ (resolvable env arg2 → msg = "Item is nullptr").
Proof.
  intros H. unfold luaContainerAddItem.
  destruct arg2 as [n|name]; simpl in *.
  - destruct H as [H|H]; [exfalso; apply H; exact I|].
    exists "Item is nullptr". split; [|split; [intros Hn; exfalso; apply Hn; exact I|reflexivity]].
    unfold mbind at 1, M_bind at 1, CreateItem. rewrite H. reflexivity.
  - destruct (Z.eqb_spec (getItemIdByName env name) 0) as [E|E].
    + exists "Item id is wrong". split; [reflexivity|].
      split; [reflexivity|]. intros Hn. exfalso. exact (Hn E).
    + destruct H as [H|H]; [exfalso; apply H; exact E|].
      exists "Item is nullptr". split; [|split; [intros Hn; exfalso; exact (Hn E)|reflexivity]].
      unfold mbind at 1, M_bind at 1, CreateItem. rewrite H. reflexivity.
Qed.

Lemma resolvable_or_not (arg2 : ItemIdArg) :
  resolvable env arg2 ∨ ¬ resolvable env arg2.
Proof.
  destruct arg2 as [n|name]; simpl; [left; exact I|].
  destruct (decide (getItemIdByName env name = 0)) as [E|E]; [right|left]; tauto.
Qed.

(** The four ways of [addItem] on a container. *)
Lemma addItem_cases w c (arg2 : ItemIdArg) (arg3 arg4 arg5 : option Z) :
  (∃ msg, luaContainerAddItem env (Some c) arg2 arg3 arg4 arg5 w
          = Done LuaNil (with_errors (fun l => l ++ [msg]) w))
  ∨ (∃ item w1,
       creates w item (requested_id env arg2)
         (addItem_count (items env (requested_id env arg2)) (default 1 arg3)) w1
       ∧ luaContainerAddItem env (Some c) arg2 arg3 arg4 arg5 w =
           addItem_answer env item
             (internalAddItem env c item (default (INDEX_WHEREEVER env) arg4)
                (default 0 arg5) w1)).
Proof.
  destruct (resolvable_or_not arg2) as [Hres|Hres].
  - destruct (decide (type_id (items env (requested_id env arg2)) = 0)) as [Hid|Hid].
    + left. exists "Item is nullptr". unfold luaContainerAddItem.
      destruct arg2 as [n|name]; simpl in *.
      * unfold mbind at 1, M_bind at 1, CreateItem. rewrite Hid. reflexivity.
      * rewrite (proj2 (Z.eqb_neq _ _) Hres).
        unfold mbind at 1, M_bind at 1, CreateItem. rewrite Hid. reflexivity.
    + right. exact (addItem_run env w c arg2 arg3 arg4 arg5 Hres Hid).
  - left. exists "Item id is wrong". unfold luaContainerAddItem.
    destruct arg2 as [n|name]; simpl in *; [exfalso; apply Hres; exact I|].
    destruct (Z.eqb_spec (getItemIdByName env name) 0) as [E|E];
      [reflexivity|contradiction].
Qed.

(** [addItem] never fails silently. With an insertion engine that reports
    nothing itself, a call either pushes the new item and reports nothing,
    or pushes nil or false after exactly one report; it pushes false only
    for a container. *)
Theorem addItem_item_or_report (container : option Ref) w (arg2 : ItemIdArg)
    (arg3 arg4 arg5 : option Z) :
  engine_silent env →
  ∃ v w',
    luaContainerAddItem env container arg2 arg3 arg4 arg5 w = Done v w'
    ∧ ((∃ item, v = LuaUserdata item ∧ heap w !! item = None
                ∧ errors w' = errors w)
       ∨ ((v = LuaNil ∨ v = LuaBoolean false ∧ is_Some container)
          ∧ ∃ msg, errors w' = errors w ++ [msg])).
Proof.
  intros Hsilent. destruct container as [c|].
  2:{ eexists _, _. split; [reflexivity|]. right. split; [left; reflexivity|].
      eexists. reflexivity. }
  destruct (addItem_cases w c arg2 arg3 arg4 arg5)
    as [(msg & ->)|(item & w1 & (Hfresh & _ & _ & Herr & _) & ->)].
  { eexists _, _. split; [reflexivity|]. right. split; [left; reflexivity|].
    exists msg. reflexivity. }
  unfold addItem_answer.
  pose proof (Hsilent c item (default (INDEX_WHEREEVER env) arg4) (default 0 arg5) w1)
    as Hs.
  destruct (decide _) as [E|E].
  - eexists _, _. split; [reflexivity|]. left. exists item.
    split; [reflexivity|]. split; [exact Hfresh|]. congruence.
  - eexists _, _. split; [reflexivity|]. right.
    split; [right; split; [reflexivity|eexists; reflexivity]|].
    eexists. simpl. rewrite Hs, Herr. reflexivity.
Qed.

(** For a stackable type only the low 16 bits of the requested count are
    looked at: two requests that differ by a multiple of 65536 do the
    same. *)
Theorem addItem_count_periodic (container : option Ref) w (arg2 : ItemIdArg)
    (n k : Z) (arg4 arg5 : option Z) :
  stackable (items env (requested_id env arg2)) = true →
  luaContainerAddItem env container arg2 (Some (n + 65536 * k)) arg4 arg5 w
  = luaContainerAddItem env container arg2 (Some n) arg4 arg5 w.
Proof.
  intros Hst.
  assert (Hcount : addItem_count (items env (requested_id env arg2)) (n + 65536 * k)
                   = addItem_count (items env (requested_id env arg2)) n).
  { unfold addItem_count. rewrite Hst. unfold to_u16. f_equal.
    replace (n + 65536 * k) with (n + k * 2 ^ 16) by lia.
    apply Z_mod_plus_full. }
  unfold luaContainerAddItem. destruct container as [c|]; [|reflexivity].
  destruct arg2 as [m|name]; simpl in *.
  - rewrite Hcount. reflexivity.
  - destruct (getItemIdByName env name =? 0); [reflexivity|].
    rewrite Hcount. reflexivity.
Qed.

(** ** What [addItemEx] and [getItemCountById] push *)

(** [addItemEx] pushes nil or a number, never a boolean or an item: a number,
    the engine's return value, exactly when the item and the container are
    there and the item is in limbo. In every other case the world is left
    as it was but for the report of an owned item. *)
Theorem addItemEx_number_iff (container item : option Ref) w (arg3 arg4 : option Z) :
  ∃ v w',
    luaContainerAddItemEx env container item arg3 arg4 w = Done v w'
    ∧ (v = LuaNil ∨ ∃ n, v = LuaNumber n)
    ∧ ((∃ n, v = LuaNumber n)
       ↔ ∃ c i, container = Some c ∧ item = Some i
                ∧ getParent w i = Some virtualCylinder)
    ∧ (v = LuaNil → heap w' = heap w ∧ tempItems w' = tempItems w)
    ∧ (∀ c i, container = Some c → item = Some i →
              getParent w i = Some virtualCylinder →
              v = LuaNumber (internalAddItem env c i (default (INDEX_WHEREEVER env) arg3)
                               (default 0 arg4) w).1).
Proof.
  destruct item as [i|].
  2:{ exists LuaNil, w. split; [reflexivity|]. split; [left; reflexivity|].
      split; [|split; [intros _; split; reflexivity|intros c i _ Hi; discriminate Hi]].
      split; [intros [n Hn]; discriminate Hn|intros (c & i & _ & Hi & _); discriminate Hi]. }
  destruct container as [c|].
  2:{ exists LuaNil, w. split; [reflexivity|]. split; [left; reflexivity|].
      split; [|split; [intros _; split; reflexivity|intros c j Hc; discriminate Hc]].
      split; [intros [n Hn]; discriminate Hn|intros (c & j & Hc & _); discriminate Hc]. }
  destruct (decide (getParent w i = Some virtualCylinder)) as [Hp|Hp].
  - unfold luaContainerAddItemEx, mbind, M_bind, gets, Game_internalAddItem.
    rewrite bool_decide_eq_false_2 by (intros H; apply H; exact Hp).
    destruct (internalAddItem env c i _ _ w) as [ret w1] eqn:E; simpl.
    destruct (ret =? RETURNVALUE_NOERROR env); simpl;
      (eexists _, _; split; [reflexivity|]; split; [right; eexists; reflexivity|];
       split; [split; [intros _; exists c, i; auto|intros _; eexists; reflexivity]|];
       split; [intros Hn; discriminate Hn|];
       intros c' i' [= <-] [= <-] _; rewrite E; reflexivity).
  - unfold luaContainerAddItemEx, mbind, M_bind, gets.
    rewrite bool_decide_eq_true_2 by exact Hp.
    eexists _, _. split; [reflexivity|]. split; [left; reflexivity|].
    split; [|split; [intros _; split; reflexivity
                    |intros c' i' _ [= <-] Hp'; contradiction]].
    split; [intros [n Hn]; discriminate Hn|].
    intros (c' & i' & _ & [= <-] & Hp'). contradiction.
Qed.

(** [getItemCountById] tells an unknown name from a count of zero: it pushes
    nil, without a report, exactly when its argument is a name the catalog
    does not know, and otherwise the number the container counts for the
    id, over every subtype when none is given. It changes nothing. *)
Theorem getItemCountById_nil_iff w c (arg2 : ItemIdArg) (arg3 : option Z) :
  ∃ v,
    luaContainerGetItemCountById env (Some c) arg2 arg3 w = Done v w
    ∧ (v = LuaNil ↔ ¬ resolvable env arg2)
    ∧ (resolvable env arg2 →
       v = LuaNumber (getItemTypeCount env w c (requested_id env arg2)
                        (default (-1) arg3))).
Proof.
  unfold luaContainerGetItemCountById. destruct arg2 as [n|name]; simpl.
  - eexists. split; [reflexivity|]. split; [|reflexivity].
    split; [discriminate|intros H; exfalso; apply H; exact I].
  - destruct (Z.eqb_spec (getItemIdByName env name) 0) as [E|E].
    + eexists. split; [reflexivity|]. split; [|intros H; contradiction].
      split; [intros _ H; contradiction|reflexivity].
    + eexists. split; [reflexivity|]. split; [|reflexivity].
      split; [discriminate|intros H; contradiction].
Qed.

(** ** The null item of [registerReward] *)

(** [registerReward] dereferences a null pointer exactly when the container
    is there and the factory returns no reward item: it is the one binding
    that does not test what the factory returns. *)
Theorem registerReward_faults_iff (container : option Ref) w :
  luaContainerRegisterReward env container w = NullDereference
  ↔ ∃ c w1, container = Some c
            ∧ CreateItem env (ITEM_REWARD_CONTAINER env) 0 (with_clock_reads S w)
              = Done None w1.
Proof.
  destruct container as [c|]; simpl.
  - unfold mbind, M_bind, getTimeMsNow.
    destruct (CreateItem env (ITEM_REWARD_CONTAINER env) 0 (with_clock_reads S w))
      as [[r|] w1|] eqn:E.
    + split; [discriminate|]. intros (c' & w1' & _ & H). discriminate H.
    + split; [|reflexivity]. intros _. exists c, w1. split; reflexivity.
    + split; [|reflexivity]. intros _. exfalso.
      unfold CreateItem in E. destruct (type_id _ =? 0); discriminate E.
  - split; [discriminate|]. intros (c & w1 & H & _). discriminate H.
Qed.

(** ** Bounds of the free slots *)

Lemma getEmptySlots_run w c (recursive : option bool) :
  luaContainerGetEmptySlots env (Some c) recursive w
  = Done (LuaNumber (to_u32 (total_free_slots env w c (default false recursive)))) w.
Proof.
  unfold luaContainerGetEmptySlots, mbind, M_bind, gets, mret, M_ret. simpl.
  f_equal. f_equal. unfold total_free_slots.
  destruct (default false recursive).
  - rewrite <- (to_u32_small (emptySlots_loop _ _ _ _))
      by (apply emptySlots_loop_range, to_u32_range).
    rewrite emptySlots_loop_sum, to_u32_add_l. reflexivity.
  - f_equal. unfold free_slots. lia.
Qed.

(** For a container that holds more items than its capacity the difference
    wraps around: [getEmptySlots] pushes 2^32 less the excess, not a
    negative number and not 0. *)
Theorem getEmptySlots_overfull w c :
  Container_capacity env w c < Container_size w c →
  Container_size w c - Container_capacity env w c <= 2 ^ 32 →
  luaContainerGetEmptySlots env (Some c) None w
  = Done (LuaNumber (2 ^ 32 - (Container_size w c - Container_capacity env w c))) w.
Proof.
  intros Hover Hfit. rewrite getEmptySlots_run. simpl default.
  unfold total_free_slots, free_slots, to_u32. rewrite Z.add_0_r.
  f_equal. f_equal.
  replace (Container_capacity env w c - Container_size w c)
    with (2 ^ 32 - (Container_size w c - Container_capacity env w c) + -1 * 2 ^ 32)
    by lia.
  rewrite Z_mod_plus_full. apply Z.mod_small. lia.
Qed.

Lemma sumZ_nonneg (l : list Z) : Forall (fun z => 0 <= z) l → 0 <= sumZ l.
Proof. induction 1; simpl; lia. Qed.

(** When no nested container holds more than its capacity and the sums fit
    32 bits, the recursive count is at least the count of the container
    alone. *)
Theorem getEmptySlots_recursive_ge w c :
  (∀ x, x ∈ nested_containers env w c → Container_size w x <= Container_capacity env w x) →
  in_u32 (total_free_slots env w c false) →
  in_u32 (total_free_slots env w c true) →
  ∃ n m,
    luaContainerGetEmptySlots env (Some c) (Some false) w = Done (LuaNumber n) w
    ∧ luaContainerGetEmptySlots env (Some c) (Some true) w = Done (LuaNumber m) w
    ∧ n <= m.
Proof.
  intros Hfit Hn Hm. eexists _, _.
  split; [apply getEmptySlots_run|]. split; [apply getEmptySlots_run|].
  simpl default. rewrite (to_u32_small _ Hn), (to_u32_small _ Hm).
  unfold total_free_slots.
  assert (0 <= sumZ (free_slots env w <$> nested_containers env w c)); [|lia].
  apply sumZ_nonneg, Forall_fmap, Forall_forall. intros x Hx. simpl.
  unfold free_slots. specialize (Hfit x Hx). lia.
Qed.

Lemma sumZ_Permutation (l1 l2 : list Z) : l1 ≡ₚ l2 → sumZ l1 = sumZ l2.
Proof. induction 1; simpl; lia. Qed.

(** The loop of [getEmptySlots] does not depend on the order in which the
    iterator yields the items: two sequences with the same items give the
    same number. *)
Theorem emptySlots_loop_order w (it1 it2 : list Ref) (slots : Z) :
  it1 ≡ₚ it2 →
  in_u32 slots →
  emptySlots_loop env w it1 slots = emptySlots_loop env w it2 slots.
Proof.
  intros Hperm Hs.
  rewrite <- (to_u32_small (emptySlots_loop env w it1 slots))
    by (apply emptySlots_loop_range; exact Hs).
  rewrite <- (to_u32_small (emptySlots_loop env w it2 slots))
    by (apply emptySlots_loop_range; exact Hs).
  rewrite !emptySlots_loop_sum. f_equal. f_equal.
  apply sumZ_Permutation, fmap_Permutation, filter_Permutation. exact Hperm.
Qed.

(** ** The table of [getItems] as an array *)

Lemma getItems_loop_size (l : list Ref) (index : Z) (t : gmap Z LuaValue) :
  (∀ k, index < k → t !! k = None) →
  size (getItems_loop l index t) = (size t + length l)%nat.
Proof.
  revert index t. induction l as [|item l IH]; intros index t Hfree; simpl.
  - lia.
  - rewrite IH.
    + rewrite map_size_insert_None by (apply Hfree; lia). lia.
    + intros k Hk. rewrite lookup_insert_ne by lia. apply Hfree. lia.
Qed.

Lemma table_array_getItems_loop (l pre : list Ref) (t : gmap Z LuaValue) (extra : nat) :
  t = getItems_loop (pre ++ l) 0 ∅ →
  table_array (length l + extra) t (Z.of_nat (length pre) + 1) = LuaUserdata <$> l.
Proof.
  intros ->. revert pre. induction l as [|item l IH]; intros pre.
  - destruct extra as [|extra]; simpl; [reflexivity|].
    rewrite getItems_loop_lookup, decide_False by (rewrite length_app; simpl; lia).
    reflexivity.
  - simpl. rewrite getItems_loop_lookup.
    rewrite decide_True by (rewrite length_app; simpl; lia).
    replace (Z.to_nat (Z.of_nat (length pre) + 1 - 0 - 1)) with (length pre) by lia.
    rewrite lookup_app_r, Nat.sub_diag by lia. simpl. f_equal.
    specialize (IH (pre ++ [item])).
    rewrite <- app_assoc in IH. simpl in IH.
    rewrite length_app in IH. simpl in IH.
    replace (Z.of_nat (length pre) + 1 + 1) with (Z.of_nat (length pre + 1) + 1) by lia.
    exact IH.
Qed.

(** The table [getItems] pushes is an array: it has as many entries as the
    container materializes items, and read from key 1 up to the first absent
    key it gives back these items, in their order. *)
Theorem getItems_array w c (arg2 : option bool) (extra : nat) :
  let l := getItems env w c (default false arg2) in
  ∃ t, luaContainerGetItems env (Some c) arg2 w = Done (LuaTable t) w
       ∧ size t = length l
       ∧ table_array (length l + extra) t 1 = LuaUserdata <$> l.
Proof.
  intros l. exists (getItems_loop l 0 ∅). split; [reflexivity|]. split.
  - rewrite getItems_loop_size by (intros; apply lookup_empty).
    rewrite map_size_empty. reflexivity.
  - apply (table_array_getItems_loop l [] _ extra). reflexivity.
Qed.

(** ** What no binding undoes *)

Lemma grows_refl w : grows w w.
Proof. unfold grows. repeat split; reflexivity. Qed.

Lemma grows_trans w1 w2 w3 : grows w1 w2 → grows w2 w3 → grows w1 w3.
Proof.
  intros (H1 & H2 & H3 & H4) (K1 & K2 & K3 & K4). unfold grows.
  split; [set_solver|]. split; [set_solver|].
  split; [etrans; eassumption|lia].
Qed.

Lemma grows_report w (msg : string) : grows w (with_errors (fun l => l ++ [msg]) w).
Proof.
  unfold grows. simpl. repeat split; try reflexivity. apply prefix_app_r. reflexivity.
Qed.

Lemma grows_creates w r (id count : Z) w1 : creates w r id count w1 → grows w w1.
Proof.
  intros (_ & (it & Hheap & _) & Htemp & Herr & Hclock). unfold grows.
  rewrite Hheap, dom_insert_L, Htemp, Herr, Hclock.
  split; [apply union_subseteq_r|]. repeat split; reflexivity.
Qed.

Lemma query_keeps_world (call : Call) w (v : LuaValue) w' :
  mutating call = false → run_call env call w = Done v w' → w' = w.
Proof.
  destruct call as [id|k|k|k|k ?|k|k ?|k ?| | |k|k a2 ?|k ?|k ?| ];
    try discriminate; intros _; simpl;
    try (destruct k; intros [= _ <-]; reflexivity).
  - unfold luaContainerCreate, mbind, M_bind, gets.
    destruct (getContainerByUID env w id); intros [= _ <-]; reflexivity.
  - destruct k as [c|]; [|intros [= _ <-]; reflexivity].
    unfold luaContainerGetItem, mbind, M_bind, gets.
    destruct (Container_getItemByIndex w c _); intros [= _ <-]; reflexivity.
  - destruct k as [c|]; [|intros [= _ <-]; reflexivity].
    unfold luaContainerGetItemCountById.
    destruct a2 as [n|name]; [intros [= _ <-]; reflexivity|].
    destruct (getItemIdByName env name =? 0); intros [= _ <-]; reflexivity.
Qed.

(** With an insertion engine that destroys no object, makes no temporary
    item, erases no report and leaves the clock alone, no binding does
    either: after every call that returns, the objects that were there are
    still there, the temporary items are among those that were there, and
    the reports start with those that were made before. *)
Theorem bindings_grow (call : Call) w (v : LuaValue) w' :
  engine_frame env →
  run_call env call w = Done v w' →
  grows w w'.
Proof.
  intros Hengine Hrun.
  destruct (mutating call) eqn:Hm.
  2:{ rewrite (query_keeps_world call w v w' Hm Hrun). apply grows_refl. }
  destruct call as [| | | | | | | |k a2 a3 a4 a5|k item a3 a4| | | | |k];
    try discriminate; simpl in Hrun.
  - (* addItem *)
    destruct k as [c|]; [|injection Hrun as _ <-; apply grows_report].
    destruct (addItem_cases w c a2 a3 a4 a5) as [(msg & E)|(i & w1 & Hc & E)];
      rewrite E in Hrun.
    + injection Hrun as _ <-. apply grows_report.
    + apply (grows_trans _ w1); [exact (grows_creates _ _ _ _ _ Hc)|].
      pose proof (Hengine c i (default (INDEX_WHEREEVER env) a4) (default 0 a5) w1) as Hg.
      unfold addItem_answer in Hrun. destruct (decide _); injection Hrun as _ <-.
      * exact Hg.
      * eapply grows_trans; [exact Hg|apply grows_report].
  - (* addItemEx *)
    destruct item as [i|]; [|injection Hrun as _ <-; apply grows_refl].
    destruct k as [c|]; [|injection Hrun as _ <-; apply grows_refl].
    unfold luaContainerAddItemEx, mbind, M_bind, gets, Game_internalAddItem in Hrun.
    destruct (bool_decide _).
    + injection Hrun as _ <-. apply grows_report.
    + pose proof (Hengine c i (default (INDEX_WHEREEVER env) a3) (default 0 a4) w) as Hg.
      destruct (internalAddItem env c i _ _ w) as [ret w1]; simpl in *.
      destruct (ret =? RETURNVALUE_NOERROR env); injection Hrun as _ <-;
        [|exact Hg].
      destruct Hg as (H1 & H2 & H3 & H4). unfold grows. simpl.
      split; [exact H1|].
      split; [apply subseteq_difference_l; exact H2|]. split; assumption.
  - (* registerReward *)
    destruct k as [c|]; [|injection Hrun as _ <-; apply grows_refl].
    unfold luaContainerRegisterReward, mbind, M_bind, getTimeMsNow, CreateItem in Hrun.
    simpl in Hrun.
    destruct (type_id _ =? 0); [discriminate|].
    injection Hrun as _ <-. unfold grows. simpl.
    rewrite !dom_alter_L, dom_insert_L.
    split; [apply union_subseteq_r|].
    split; [reflexivity|]. split; [reflexivity|lia].
Qed.

(** ** Registering a reward again *)

Ltac store_lookup :=
  repeat first
    [ rewrite lookup_alter_eq
    | rewrite lookup_alter_ne by congruence
    | rewrite lookup_insert_eq
    | rewrite lookup_insert_ne by congruence ].

(** One registration, with the slots in the order of the model. *)
Lemma registerReward_step w c :
  is_Some (getContainer w c) →
  type_id (items env (ITEM_REWARD_CONTAINER env)) ≠ 0 →
  ∃ r w',
    luaContainerRegisterReward env (Some c) w = Done (LuaBoolean true) w'
    ∧ heap w !! r = None
    ∧ item_id <$> heap w' !! r = Some (ITEM_REWARD_CONTAINER env)
    ∧ is_Some (getContainer w' c)
    ∧ clock_reads w' = S (clock_reads w)
    ∧ slots_of w' c = slots_of w c ++ [r]
    ∧ getAttribute w' r DATE = Some (clock env (clock_reads w))
    ∧ getAttribute w' c DATE = Some (clock env (clock_reads w))
    ∧ (∀ x, x ≠ c → x ≠ r → heap w' !! x = heap w !! x).
Proof.
  intros [k Hk] Hid. unfold getContainer in Hk.
  destruct (heap w !! c) as [ic|] eqn:Hc; [simpl in Hk|discriminate].
  set (r := fresh (dom (heap w))).
  assert (Hr : heap w !! r = None) by apply not_elem_of_dom, is_fresh.
  assert (Hne : c ≠ r) by (intros ->; congruence).
  exists r. eexists. split.
  { unfold luaContainerRegisterReward, mbind, M_bind, getTimeMsNow, CreateItem.
    simpl. rewrite (proj2 (Z.eqb_neq _ _) Hid). reflexivity. }
  fold r. clearbody r. simpl clock_reads.
  unfold slots_of, getAttribute, getContainer. simpl heap.
  split; [exact Hr|].
  split; [store_lookup; reflexivity|].
  split; [store_lookup; rewrite Hc; simpl; rewrite Hk; eexists; reflexivity|].
  split; [reflexivity|].
  split; [store_lookup; rewrite Hc; simpl; rewrite Hk; reflexivity|].
  split; [store_lookup; reflexivity|].
  split; [store_lookup; rewrite Hc; simpl; apply lookup_insert_eq|].
  intros x Hxc Hxr. store_lookup. reflexivity.
Qed.

(** [registerReward] is not idempotent: a second call on the same container
    creates a second reward item beside the first, and overwrites the date
    of the container with the later reading of the clock, while the first
    item keeps the earlier one. *)
Theorem registerReward_again w c :
  is_Some (getContainer w c) →
  type_id (items env (ITEM_REWARD_CONTAINER env)) ≠ 0 →
  ∃ r1 r2 w1 w2,
    luaContainerRegisterReward env (Some c) w = Done (LuaBoolean true) w1
    ∧ luaContainerRegisterReward env (Some c) w1 = Done (LuaBoolean true) w2
    ∧ r1 ≠ r2
    ∧ r1 ∈ slots_of w2 c ∧ r2 ∈ slots_of w2 c
    ∧ length (slots_of w2 c) = S (S (length (slots_of w c)))
    ∧ getAttribute w2 r1 DATE = Some (clock env (clock_reads w))
    ∧ getAttribute w2 r2 DATE = Some (clock env (S (clock_reads w)))
    ∧ getAttribute w2 c DATE = Some (clock env (S (clock_reads w)))
    ∧ heap w !! r1 = None
    ∧ heap w1 !! r2 = None
    ∧ item_id <$> heap w2 !! r1 = Some (ITEM_REWARD_CONTAINER env)
    ∧ item_id <$> heap w2 !! r2 = Some (ITEM_REWARD_CONTAINER env).
Proof.
  intros Hc Hid.
  destruct (registerReward_step w c Hc Hid)
    as (r1 & w1 & Hrun1 & Hfresh1 & Hty1 & Hc1 & Hclock1 & Hslots1 & Hd1 & _ & _).
  destruct (registerReward_step w1 c Hc1 Hid)
    as (r2 & w2 & Hrun2 & Hfresh2 & Hty2 & _ & _ & Hslots2 & Hd2 & Hdc2 & Hframe2).
  assert (Hne : r1 ≠ r2).
  { intros ->. rewrite Hfresh2 in Hty1. discriminate Hty1. }
  assert (Hr1c : r1 ≠ c).
  { intros ->. destruct Hc as [k Hk]. unfold getContainer in Hk.
    rewrite Hfresh1 in Hk. discriminate Hk. }
  exists r1, r2, w1, w2. rewrite Hclock1 in Hd2, Hdc2.
  split; [exact Hrun1|]. split; [exact Hrun2|]. split; [exact Hne|].
  rewrite Hslots2, Hslots1.
  split; [set_solver|]. split; [set_solver|].
  split; [rewrite !length_app; simpl; lia|].
  split; [unfold getAttribute in *; rewrite (Hframe2 r1 Hr1c Hne); exact Hd1|].
  split; [exact Hd2|]. split; [exact Hdc2|].
  split; [exact Hfresh1|]. split; [exact Hfresh2|].
  split; [rewrite (Hframe2 r1 Hr1c Hne); exact Hty1|exact Hty2].
Qed.

End Further.

(** * The bindings on the sample engine *)

Import Sample.

(** The sample iterator walks the backpack depth first. *)
Example depth_first_camp : depth_first camp backpack = [coins; bag; coin_in_bag].
Proof. reflexivity. Qed.

(** Two registrations leave two reward items and the later reading. *)
Example registerReward_twice :
  ∃ w1 w2,
    luaContainerRegisterReward env (Some backpack) shelf = Done (LuaBoolean true) w1
    ∧ luaContainerRegisterReward env (Some backpack) w1 = Done (LuaBoolean true) w2
    ∧ length (slots_of w2 backpack) = 2%nat
    ∧ getAttribute w2 backpack DATE = Some 1700000000001.
Proof.
  eexists _, _. split; [vm_compute; reflexivity|].
  split; [vm_compute; reflexivity|]. split; reflexivity.
Qed.

(** On an absent container [addItem] pushes nil and reports. *)
Lemma absent_container_rejected_addItem :
  call_container env nowhere (CallAddItem None (ById GOLD_COIN) None None None) = None
  ∧ run_call env (CallAddItem None (ById GOLD_COIN) None None None) nowhere
    = Done LuaNil (mkWorld ∅ ∅ ["Container is nullptr"] 0).
Proof.
  split; [reflexivity|].
  apply (absent_container_rejected env
           (CallAddItem None (ById GOLD_COIN) None None None) nowhere).
  reflexivity.
Defined.

(** C2 fails for [registerReward]: a mutating call on an absent container
    that pushes nil without any error report. *)
Lemma registerReward_absent_unreported :
  mutating (CallRegisterReward None) = true
  ∧ call_container env nowhere (CallRegisterReward None) = None
  ∧ ¬ ∃ w', run_call env (CallRegisterReward None) nowhere = Done LuaNil w'
            ∧ errors w' ≠ errors nowhere.
Proof.
  split; [reflexivity|]. split; [reflexivity|].
  intros (w' & Hrun & Herr). apply Herr.
  simpl in Hrun. injection Hrun as <-. reflexivity.
Qed.

(** C7 fails as stated: on an absent container [registerReward] does not
    push the boolean false. *)
Lemma registerReward_absent_not_false :
  ¬ ∃ w', luaContainerRegisterReward env None shelf = Done (LuaBoolean false) w'.
Proof. intros (w' & Hrun). discriminate Hrun. Qed.

(** The coins in the backpack are refused by [addItemEx]. *)
Lemma addItemEx_already_owned_coins :
  getParent camp coins ≠ Some virtualCylinder
  ∧ ∃ w', luaContainerAddItemEx env (Some bag) (Some coins) None None camp = Done LuaNil w'
          ∧ heap w' = heap camp
          ∧ tempItems w' = tempItems camp
          ∧ clock_reads w' = clock_reads camp
          ∧ errors w' = errors camp ++ ["Item already has a parent"].
Proof.
  assert (H : getParent camp coins ≠ Some virtualCylinder) by (vm_compute; discriminate).
  split; [exact H|].
  exact (addItemEx_already_owned env camp bag coins None None H).
Defined.

(** The loose coins go into the bag and leave the temporary items. *)
Lemma addItemEx_limbo_loose_coins :
  getParent camp loose_coins = Some virtualCylinder
  ∧ ∃ w', luaContainerAddItemEx env (Some bag) (Some loose_coins) None None camp
          = Done (LuaNumber 0) w'
          ∧ tempItems w' = ∅.
Proof.
  assert (H : getParent camp loose_coins = Some virtualCylinder) by reflexivity.
  split; [exact H|].
  destruct (addItemEx_limbo env camp bag loose_coins None None H)
    as (w' & Hrun & _ & _ & _ & Htemp).
  exists w'. split; [exact Hrun|]. rewrite Htemp. vm_compute. reflexivity.
Defined.

(** A reward is registered on the empty backpack. *)
Lemma registerReward_on_shelf :
  is_Some (getContainer shelf backpack)
  ∧ type_id (items env (ITEM_REWARD_CONTAINER env)) ≠ 0
  ∧ ∃ r w', luaContainerRegisterReward env (Some backpack) shelf
            = Done (LuaBoolean true) w'
            ∧ slots_of w' backpack ≡ₚ [r]
            ∧ getAttribute w' r DATE = Some 1700000000000
            ∧ getAttribute w' backpack DATE = Some 1700000000000
            ∧ isRewardCorpse w' backpack = true.
Proof.
  assert (H1 : is_Some (getContainer shelf backpack)) by (eexists; reflexivity).
  assert (H2 : type_id (items env (ITEM_REWARD_CONTAINER env)) ≠ 0)
    by (vm_compute; discriminate).
  split; [exact H1|]. split; [exact H2|].
  destruct (registerReward_registers env shelf backpack H1 H2)
    as (r & w' & Hrun & _ & _ & _ & Hslots & _ & Hr & Hc & Hflag & _).
  exists r, w'. split; [exact Hrun|]. split; [exact Hslots|].
  split; [exact Hr|]. split; [exact Hc|exact Hflag].
Defined.

(** The free slots of the backpack and of the bag in it: 18 and 7. *)
Lemma getEmptySlots_total_camp :
  in_u32 (total_free_slots env camp backpack true)
  ∧ luaContainerGetEmptySlots env (Some backpack) (Some true) camp
    = Done (LuaNumber 25) camp.
Proof.
  assert (H : in_u32 (total_free_slots env camp backpack true))
    by (vm_compute; split; [discriminate|reflexivity]).
  split; [exact H|].
  exact (proj2 (getEmptySlots_total env camp backpack (Some true)) H).
Defined.

(** Gold coins are added to the empty backpack. *)
Lemma addItem_converts_return_value_coins :
  resolvable env (ByName "gold coin")
  ∧ type_id (items env (requested_id env (ByName "gold coin"))) ≠ 0
  ∧ ∃ item w1 count,
      creates shelf item GOLD_COIN count w1
      ∧ (internalAddItem env backpack item (-1) 0 w1).1 = RETURNVALUE_NOERROR env
      ∧ luaContainerAddItem env (Some backpack) (ByName "gold coin") (Some 30) None None shelf
        = Done (LuaUserdata item) (internalAddItem env backpack item (-1) 0 w1).2.
Proof.
  assert (H1 : resolvable env (ByName "gold coin")) by (vm_compute; discriminate).
  assert (H2 : type_id (items env (requested_id env (ByName "gold coin"))) ≠ 0)
    by (vm_compute; discriminate).
  split; [exact H1|]. split; [exact H2|].
  destruct (addItem_converts_return_value env shelf backpack
              (ByName "gold coin") (Some 30) None None H1 H2)
    as (item & w1 & count & Hc & Hok & _).
  exists item, w1, count. split; [exact Hc|].
  assert (E : (internalAddItem env backpack item (-1) 0 w1).1 = RETURNVALUE_NOERROR env).
  { destruct Hc as (Hnone & (it & Hheap & _) & _).
    simpl. unfold insert, Container_size, Container_getMaxCapacity, slots_of, getContainer.
    rewrite Hheap. destruct (decide (item = backpack)) as [->|Hne].
    - exfalso. vm_compute in Hnone. discriminate Hnone.
    - rewrite lookup_insert_ne by exact Hne. reflexivity. }
  split; [exact E|]. exact (Hok E).
Defined.

(** A request of 150 gold coins creates a stack of 100. *)
Lemma addItem_stack_clamped_coins :
  resolvable env (ById GOLD_COIN)
  ∧ type_id (items env (requested_id env (ById GOLD_COIN))) ≠ 0
  ∧ stackable (items env (requested_id env (ById GOLD_COIN))) = true
  ∧ in_u16 (stackSize (items env (requested_id env (ById GOLD_COIN))))
  ∧ ∃ item w1, creates shelf item GOLD_COIN 100 w1.
Proof.
  assert (H1 : resolvable env (ById GOLD_COIN)) by exact I.
  assert (H2 : type_id (items env (requested_id env (ById GOLD_COIN))) ≠ 0)
    by (vm_compute; discriminate).
  assert (H3 : stackable (items env (requested_id env (ById GOLD_COIN))) = true)
    by reflexivity.
  assert (H4 : in_u16 (stackSize (items env (requested_id env (ById GOLD_COIN)))))
    by (vm_compute; split; [discriminate|reflexivity]).
  split; [exact H1|]. split; [exact H2|]. split; [exact H3|]. split; [exact H4|].
  destruct (addItem_stack_clamped env shelf backpack (ById GOLD_COIN)
              (Some 150) None None H1 H2 H3 H4)
    as (item & w1 & count & Hc & _ & Hmin & _).
  exists item, w1.
  rewrite Hmin in Hc by (vm_compute; split; [discriminate|reflexivity]).
  exact Hc.
Defined.

(** C4 fails as stated: 150 gold coins are requested, the stack size is 100;
    the call is accepted without a report, one object is created and it
    holds 100 units in one slot: 50 units are neither split off nor
    refused. *)
Lemma addItem_excess_dropped :
  stackable (items env GOLD_COIN) = true
  ∧ stackSize (items env GOLD_COIN) = 100
  ∧ ∃ item w',
      luaContainerAddItem env (Some backpack) (ById GOLD_COIN) (Some 150) None None shelf
      = Done (LuaUserdata item) w'
      ∧ errors w' = []
      ∧ new_objects shelf w' = [item]
      ∧ slots_of w' backpack = [item]
      ∧ units_created shelf w' = 100.
Proof.
  split; [reflexivity|]. split; [reflexivity|].
  eexists _, _. split; [vm_compute; reflexivity|].
  vm_compute. repeat split; reflexivity.
Qed.

(** A request of 65537 gold coins creates a stack of 1. *)
Lemma addItem_count_truncated_coins :
  resolvable env (ById GOLD_COIN)
  ∧ type_id (items env (requested_id env (ById GOLD_COIN))) ≠ 0
  ∧ stackable (items env (requested_id env (ById GOLD_COIN))) = true
  ∧ in_u16 (stackSize (items env (requested_id env (ById GOLD_COIN))))
  ∧ ∃ item w1, creates shelf item GOLD_COIN 1 w1.
Proof.
  assert (H1 : resolvable env (ById GOLD_COIN)) by exact I.
  assert (H2 : type_id (items env (requested_id env (ById GOLD_COIN))) ≠ 0)
    by (vm_compute; discriminate).
  assert (H3 : stackable (items env (requested_id env (ById GOLD_COIN))) = true)
    by reflexivity.
  assert (H4 : in_u16 (stackSize (items env (requested_id env (ById GOLD_COIN)))))
    by (vm_compute; split; [discriminate|reflexivity]).
  split; [exact H1|]. split; [exact H2|]. split; [exact H3|]. split; [exact H4|].
  destruct (addItem_count_truncated env shelf backpack (ById GOLD_COIN)
              (Some 65537) None None H1 H2 H3 H4)
    as (item & w1 & count & Hc & _ & Hone & _).
  exists item, w1.
  destruct (Hone eq_refl) as (-> & _); [reflexivity|].
  exact Hc.
Defined.

(** * The further properties on the sample engine *)

Lemma sample_engine_silent : engine_silent env.
Proof.
  intros c item index flags w. simpl. unfold insert.
  destruct (_ <? _); reflexivity.
Qed.

Lemma sample_engine_frame : engine_frame env.
Proof.
  intros c item index flags w. simpl. unfold insert.
  destruct (_ <? _); [|apply grows_refl]. simpl.
  unfold grows. simpl. rewrite !dom_alter_L. repeat split; reflexivity.
Qed.

(** The size of the camp's backpack is a number, not nil. *)
Lemma nil_exactly_when_absent_getSize :
  nil_means_absent (CallGetSize (Some backpack)) = true
  ∧ run_call env (CallGetSize (Some backpack)) camp = Done (LuaNumber 2) camp
  ∧ (LuaNumber 2 = LuaNil ↔ call_container env camp (CallGetSize (Some backpack)) = None).
Proof.
  split; [reflexivity|]. split; [reflexivity|].
  apply (nil_exactly_when_absent env (CallGetSize (Some backpack)) camp
           (LuaNumber 2) camp); reflexivity.
Defined.

(** The catalog knows no dragon. *)
Lemma addItem_early_failure_dragon :
  (¬ resolvable env (ByName "dragon")
   ∨ type_id (items env (requested_id env (ByName "dragon"))) = 0)
  ∧ luaContainerAddItem env (Some backpack) (ByName "dragon") None None None shelf
    = Done LuaNil (with_errors (fun l => l ++ ["Item id is wrong"]) shelf).
Proof.
  assert (Hn : ¬ resolvable env (ByName "dragon")) by (intros H; apply H; reflexivity).
  split; [left; exact Hn|].
  destruct (addItem_early_failure env shelf backpack (ByName "dragon") None None None
              (or_introl Hn)) as (msg & Hrun & Hmsg & _).
  rewrite Hrun, (Hmsg Hn). reflexivity.
Defined.

(** A backpack is added to the backpack, with no report. *)
Lemma addItem_item_or_report_backpack :
  engine_silent env
  ∧ ∃ v w',
      luaContainerAddItem env (Some backpack) (ById BACKPACK) None None None shelf
      = Done v w'
      ∧ ((∃ item, v = LuaUserdata item ∧ heap shelf !! item = None
                  ∧ errors w' = errors shelf)
         ∨ ((v = LuaNil ∨ v = LuaBoolean false ∧ is_Some (Some backpack))
            ∧ ∃ msg, errors w' = errors shelf ++ [msg])).
Proof.
  split; [exact sample_engine_silent|].
  exact (addItem_item_or_report env (Some backpack) shelf (ById BACKPACK)
           None None None sample_engine_silent).
Defined.

(** 65546 gold coins are 10 gold coins. *)
Lemma addItem_count_periodic_coins :
  stackable (items env (requested_id env (ById GOLD_COIN))) = true
  ∧ luaContainerAddItem env (Some backpack) (ById GOLD_COIN) (Some (10 + 65536 * 1))
      None None shelf
    = luaContainerAddItem env (Some backpack) (ById GOLD_COIN) (Some 10) None None shelf.
Proof.
  split; [reflexivity|].
  apply (addItem_count_periodic env (Some backpack) shelf (ById GOLD_COIN) 10 1 None None).
  reflexivity.
Defined.

(** Adding the loose coins to the bag undoes nothing. *)
Lemma bindings_grow_addItemEx :
  engine_frame env
  ∧ ∃ v w',
      run_call env (CallAddItemEx (Some bag) (Some loose_coins) None None) camp
      = Done v w'
      ∧ grows camp w'.
Proof.
  split; [exact sample_engine_frame|].
  eexists _, _. split; [vm_compute; reflexivity|].
  eapply (bindings_grow env (CallAddItemEx (Some bag) (Some loose_coins) None None)
            camp); [exact sample_engine_frame|].
  vm_compute. reflexivity.
Defined.

(** The crammed bag has 4294967295 free slots. *)
Lemma getEmptySlots_overfull_crammed :
  Container_capacity env crammed bag < Container_size crammed bag
  ∧ Container_size crammed bag - Container_capacity env crammed bag <= 2 ^ 32
  ∧ luaContainerGetEmptySlots env (Some bag) None crammed
    = Done (LuaNumber 4294967295) crammed.
Proof.
  assert (H1 : Container_capacity env crammed bag < Container_size crammed bag)
    by reflexivity.
  assert (H2 : Container_size crammed bag - Container_capacity env crammed bag <= 2 ^ 32)
    by (vm_compute; discriminate).
  split; [exact H1|]. split; [exact H2|].
  exact (getEmptySlots_overfull env crammed bag H1 H2).
Defined.

(** In the camp the backpack has 18 free slots, and 25 with the bag. *)
Lemma getEmptySlots_recursive_ge_camp :
  (∀ x, x ∈ nested_containers env camp backpack →
        Container_size camp x <= Container_capacity env camp x)
  ∧ in_u32 (total_free_slots env camp backpack false)
  ∧ in_u32 (total_free_slots env camp backpack true)
  ∧ ∃ n m,
      luaContainerGetEmptySlots env (Some backpack) (Some false) camp
      = Done (LuaNumber n) camp
      ∧ luaContainerGetEmptySlots env (Some backpack) (Some true) camp
        = Done (LuaNumber m) camp
      ∧ n <= m.
Proof.
  assert (H1 : ∀ x, x ∈ nested_containers env camp backpack →
                    Container_size camp x <= Container_capacity env camp x).
  { intros x Hx.
    assert (E : nested_containers env camp backpack = [bag]) by (vm_compute; reflexivity).
    rewrite E in Hx. apply list_elem_of_singleton in Hx. subst x.
    vm_compute. discriminate. }
  assert (H2 : in_u32 (total_free_slots env camp backpack false))
    by (vm_compute; split; [discriminate|reflexivity]).
  assert (H3 : in_u32 (total_free_slots env camp backpack true))
    by (vm_compute; split; [discriminate|reflexivity]).
  split; [exact H1|]. split; [exact H2|]. split; [exact H3|].
  exact (getEmptySlots_recursive_ge env camp backpack H1 H2 H3).
Defined.

(** Two rewards on the empty backpack. *)
Lemma registerReward_again_on_shelf :
  is_Some (getContainer shelf backpack)
  ∧ type_id (items env (ITEM_REWARD_CONTAINER env)) ≠ 0
  ∧ ∃ r1 r2 w2,
      r1 ≠ r2
      ∧ length (slots_of w2 backpack) = 2%nat
      ∧ getAttribute w2 r1 DATE = Some 1700000000000
      ∧ getAttribute w2 r2 DATE = Some 1700000000001
      ∧ getAttribute w2 backpack DATE = Some 1700000000001.
Proof.
  assert (H1 : is_Some (getContainer shelf backpack)) by (eexists; reflexivity).
  assert (H2 : type_id (items env (ITEM_REWARD_CONTAINER env)) ≠ 0)
    by (vm_compute; discriminate).
  split; [exact H1|]. split; [exact H2|].
  destruct (registerReward_again env shelf backpack H1 H2)
    as (r1 & r2 & w1 & w2 & _ & _ & Hne & _ & _ & Hlen & Hd1 & Hd2 & Hdc & _).
  exists r1, r2, w2. split; [exact Hne|]. split; [exact Hlen|].
  split; [exact Hd1|]. split; [exact Hd2|exact Hdc].
Defined.

(** The camp's items in another order. *)
Lemma emptySlots_loop_order_camp :
  [coins; bag; coin_in_bag] ≡ₚ [coin_in_bag; bag; coins]
  ∧ in_u32 18
  ∧ emptySlots_loop env camp [coins; bag; coin_in_bag] 18
    = emptySlots_loop env camp [coin_in_bag; bag; coins] 18.
Proof.
  assert (H1 : [coins; bag; coin_in_bag] ≡ₚ [coin_in_bag; bag; coins]).
  { change [coin_in_bag; bag; coins] with (reverse [coins; bag; coin_in_bag]).
    symmetry. apply reverse_Permutation. }
  assert (H2 : in_u32 18) by (split; [discriminate|reflexivity]).
  split; [exact H1|]. split; [exact H2|].
  exact (emptySlots_loop_order env camp _ _ 18 H1 H2).
Defined.

(** A reward is registered in the crammed bag, under the sample engine and
    under the engine that refuses everything alike: the bag of one slot
    then holds three items. *)
Lemma registerReward_bypasses_engine_crammed :
  is_Some (getContainer crammed bag)
  ∧ type_id (items env (ITEM_REWARD_CONTAINER env)) ≠ 0
  ∧ ∃ r w',
      luaContainerRegisterReward env (Some bag) crammed = Done (LuaBoolean true) w'
      ∧ luaContainerRegisterReward refusing (Some bag) crammed
        = Done (LuaBoolean true) w'
      ∧ Container_size w' bag = 3
      ∧ getAttribute w' r DATE = Some 1700000000000
      ∧ getAttribute w' bag DATE = Some 1700000000000
      ∧ isRewardCorpse w' bag = true.
Proof.
  assert (H1 : is_Some (getContainer crammed bag)) by (eexists; reflexivity).
  assert (H2 : type_id (items env (ITEM_REWARD_CONTAINER env)) ≠ 0)
    by (vm_compute; discriminate).
  split; [exact H1|]. split; [exact H2|].
  destruct (registerReward_bypasses_engine env crammed bag H1 H2)
    as (r & w' & Hrun & Hall & _ & _ & _ & _ & Hsize & _ & Hr & Hc & Hflag & _).
  exists r, w'. split; [exact Hrun|]. split; [exact (Hall _)|].
  split; [exact Hsize|]. split; [exact Hr|]. split; [exact Hc|exact Hflag].
Defined.

(** C1 fails as stated: the reward item is not nested by the insertion
    engine. Under an engine that refuses every item and touches nothing,
    [registerReward] on the crammed bag still pushes true and the new item is
    in the slots of the bag, which then holds three items for a capacity
    of one. *)
Lemma registerReward_not_via_engine :
  (∀ (c item : Ref) (index flags : Z) (w : World),
     internalAddItem refusing c item index flags w = (NOT_ENOUGH_ROOM, w))
  ∧ NOT_ENOUGH_ROOM ≠ RETURNVALUE_NOERROR refusing
  ∧ ∃ r w',
      luaContainerRegisterReward refusing (Some bag) crammed
      = Done (LuaBoolean true) w'
      ∧ heap crammed !! r = None
      ∧ new_objects crammed w' = [r]
      ∧ r ∈ slots_of w' bag
      ∧ Container_size w' bag = 3
      ∧ Container_capacity refusing w' bag = 1.
Proof.
  split; [reflexivity|]. split; [discriminate|].
  exists 5%positive. eexists. split; [vm_compute; reflexivity|].
  split; [reflexivity|]. split; [vm_compute; reflexivity|].
  split; [|split; reflexivity].
  apply list_elem_of_lookup. exists 2%nat. reflexivity.
Qed.
